(** * Quiz-Management: the authorization and token-lifecycle core

    A shallow embedding of the Express middleware in [middleware/auth.js]
    (class [AuthMiddleware]) and of its successor
    [middleware/auth.middleware.js], of the login paths in
    [services/auth.service.js] and [services/auth/userService.js], of the
    session trail in [services/auth.service.js] and
    [services/auth/logService.js], of the account operations in
    [services/user.service.js] with the wrappers of [db/db.js], and of the
    handlers of [controllers/auth/auth.controller.js], together with the
    properties the specification states about them and further properties
    read off the code.

    JavaScript values are modelled as follows: strings as [string], numbers
    that hold millisecond timestamps as [Z], [undefined]/[null] as [None],
    object literals sent as JSON as association lists of [Json] values, the
    [Map] captured by the throttle closure as a [gmap], and a middleware as a
    computation in a state-and-exception monad over the request, the response
    and the [next] callback. *)

From Stdlib Require Import ZArith Lia Ascii String.
From stdpp Require Import gmap strings list fin_maps.

#[local] Set Warnings "-register-all".

(** ** JavaScript values and errors *)

Inductive Json : Type :=
| JNull
| JBool (b : bool)
| JNum (n : Z)
| JStr (s : string)
| JArr (items : list Json)
| JObj (fields : list (string * Json)).

(** An object literal, in the order its properties are written. *)
Abbreviation JsObject := (list (string * Json)).

(** The errors that reach a [catch] block of the modelled code. *)
Inductive JsError : Type :=
| JsonWebTokenError (message : string)
| TokenExpiredError (message : string)
| ERR_HTTP_HEADERS_SENT
| CastError (message : string)
| ValidationError (errors : list (string * string))
| TypeError (message : string)
| Error (message : string).

Definition error_name (e : JsError) : string :=
  match e with
  | JsonWebTokenError _ => "JsonWebTokenError"
  | TokenExpiredError _ => "TokenExpiredError"
  | ERR_HTTP_HEADERS_SENT => "Error [ERR_HTTP_HEADERS_SENT]"
  | CastError _ => "CastError"
  | ValidationError _ => "ValidationError"
  | TypeError _ => "TypeError"
  | Error _ => "Error"
  end.

Definition error_message (e : JsError) : string :=
  match e with
  | JsonWebTokenError m => m
  | TokenExpiredError m => m
  | ERR_HTTP_HEADERS_SENT => "Cannot set headers after they are sent to the client"
  | CastError m => m
  | ValidationError errors =>
      "Validation failed: " +:+
      String.concat ", " (map (fun e => fst e +:+ ": " +:+ snd e) errors)
  | TypeError m => m
  | Error m => m
  end.

(** What [console.error(label, error)] prints for an error object. *)
Definition error_toString (e : JsError) : string :=
  error_name e +:+ ": " +:+ error_message e.

(** [typeof v] *)
Definition typeof (v : Json) : string :=
  match v with
  | JNull => "object"
  | JBool _ => "boolean"
  | JNum _ => "number"
  | JStr _ => "string"
  | JArr _ => "object"
  | JObj _ => "object"
  end.

(** The truth value of [v] in a condition. *)
Definition truthy (v : Json) : bool :=
  match v with
  | JNull => false
  | JBool b => b
  | JNum n => negb (n =? 0)%Z
  | JStr s => negb (String.eqb s "")
  | JArr _ => true
  | JObj _ => true
  end.

(** [o[k]], [delete o[k]] and [o[k] = v] on an object literal. *)
Definition js_get (k : string) (o : JsObject) : option Json :=
  snd <$> List.find (fun p => String.eqb (fst p) k) o.

Definition js_delete (k : string) (o : JsObject) : JsObject :=
  List.filter (fun p => negb (String.eqb (fst p) k)) o.

Fixpoint js_set (k : string) (v : Json) (o : JsObject) : JsObject :=
  match o with
  | [] => [(k, v)]
  | (k', v') :: rest =>
      if String.eqb k' k then (k, v) :: rest else (k', v') :: js_set k v rest
  end.

(** [s.includes(needle)] *)
Definition String_includes (s needle : string) : bool :=
  match String.index 0 needle s with
  | Some _ => true
  | None => false
  end.

(** [s.substring(n)]: the suffix of [s] from index [n]. *)
Definition substring_from (n : nat) (s : string) : string :=
  String.substring n (String.length s - n) s.

(** [Math.ceil(a / b)] for an integer [a] and a positive integer [b]. *)
Definition Math_ceil_div (a b : Z) : Z := (- ((- a) / b))%Z.

(** ** The request, the response and the world a middleware runs in *)

(** The decoded token payload, [req.user] once a request is authenticated:
    the four fields [generateToken] signs, and the two [jwt.sign] adds. *)
Record Claims : Type := mkClaims {
  user_id : string;
  user_email : string;
  user_role : string;
  user_status : string;
  user_iat : Z;
  user_exp : Z
}.

(** ** Documents of the two collections *)

Module User.

(** A document of [models/User.js].  [password] is [None] on a document read
    with [select('-password')] or after [delete userResponse.password].  The
    [createdAt] and [updatedAt] stamps, which no modelled code reads, are left
    out. *)
Record Doc : Type := mkDoc {
  _id : string;
  email : string;
  phone : string;
  name : string;
  password : option string;
  role : string;
  status : string
}.

End User.

Module Log.

(** A document of [models/Log.js]; dates are milliseconds since the epoch. *)
Record Doc : Type := mkDoc {
  _id : string;
  loginId : string;
  email : string;
  loggedInAt : Z;
  ip : string;
  os : option string;
  browser : option string;
  loggedOutAt : option Z
}.

End Log.

(** What the MongoDB server holds.  [fault] is the error the driver raises on
    every operation while the server cannot be reached. *)
Record Database : Type := mkDatabase {
  users : list User.Doc;
  logs : list Log.Doc;
  fault : option string
}.

(** A call of one of the two helpers of [utils/response.js]. *)
Inductive Reply : Type :=
| successResponse_call (data : option Json) (message : option string) (code : option Z)
| errorResponse_call (message : option string) (code : Z).

Record Request : Type := mkRequest {
  headers_authorization : option string;   (* req.headers.authorization *)
  headers_user_agent : option string;      (* req.headers['user-agent'] *)
  params : gmap string string;             (* req.params *)
  body : JsObject;                         (* req.body *)
  ip : string;                             (* req.ip *)
  user : option Claims                     (* req.user *)
}.

(** [statusCode] is the property [res.status] assigns; [sent] is what went
    to the client, fixed by the first [res.json]. *)
Record Response : Type := mkResponse {
  statusCode : Z;
  sent : option (Z * JsObject)
}.

Record World : Type := mkWorld {
  req : Request;
  res : Response;
  next_calls : nat;                        (* how often next() was called *)
  console : list string;                   (* lines of console.error, oldest first *)
  clock : Z;                               (* Date.now(), in milliseconds *)
  requests : gmap string (list Z);         (* the Map of the rateLimit closure *)
  db : Database;
  logger : list string;                    (* lines of logger.error, oldest first *)
  replies : list Reply                     (* calls of the response helpers *)
}.

Definition set_user (u : Claims) (r : Request) : Request :=
  mkRequest (headers_authorization r) (headers_user_agent r) (params r) (body r)
            (ip r) (Some u).

Definition with_req (f : Request -> Request) (w : World) : World :=
  mkWorld (f (req w)) (res w) (next_calls w) (console w) (clock w) (requests w)
          (db w) (logger w) (replies w).

Definition with_res (f : Response -> Response) (w : World) : World :=
  mkWorld (req w) (f (res w)) (next_calls w) (console w) (clock w) (requests w)
          (db w) (logger w) (replies w).

Definition with_next (w : World) : World :=
  mkWorld (req w) (res w) (S (next_calls w)) (console w) (clock w) (requests w)
          (db w) (logger w) (replies w).

Definition with_console (line : string) (w : World) : World :=
  mkWorld (req w) (res w) (next_calls w) (console w ++ [line]) (clock w) (requests w)
          (db w) (logger w) (replies w).

Definition with_requests (f : gmap string (list Z) -> gmap string (list Z)) (w : World) : World :=
  mkWorld (req w) (res w) (next_calls w) (console w) (clock w) (f (requests w))
          (db w) (logger w) (replies w).

Definition with_db (f : Database -> Database) (w : World) : World :=
  mkWorld (req w) (res w) (next_calls w) (console w) (clock w) (requests w)
          (f (db w)) (logger w) (replies w).

Definition with_logger (line : string) (w : World) : World :=
  mkWorld (req w) (res w) (next_calls w) (console w) (clock w) (requests w)
          (db w) (logger w ++ [line]) (replies w).

Definition with_reply (r : Reply) (w : World) : World :=
  mkWorld (req w) (res w) (next_calls w) (console w) (clock w) (requests w)
          (db w) (logger w) (replies w ++ [r]).

(** ** A state-and-exception monad for middleware bodies *)

Inductive Completion (A : Type) : Type :=
| Normal (a : A)
| Throw (e : JsError).
Arguments Normal {A} a.
Arguments Throw {A} e.

Definition M (A : Type) : Type := World -> Completion A * World.

Definition ret {A} (a : A) : M A := fun w => (Normal a, w).

Definition bind {A B} (m : M A) (k : A -> M B) : M B :=
  fun w => match m w with
           | (Normal a, w') => k a w'
           | (Throw e, w') => (Throw e, w')
           end.

Definition throw {A} (e : JsError) : M A := fun w => (Throw e, w).

(** [try { body } catch (error) { handler }] *)
Definition try_catch {A} (body : M A) (handler : JsError -> M A) : M A :=
  fun w => match body w with
           | (Normal a, w') => (Normal a, w')
           | (Throw e, w') => handler e w'
           end.

Notation "x <- m ;; k" := (bind m (fun x => k))
  (at level 100, m at next level, right associativity).
Notation "m ;;; k" := (bind m (fun _ => k))
  (at level 100, right associativity).

Definition get_req : M Request := fun w => (Normal (req w), w).

Definition Date_now : M Z := fun w => (Normal (clock w), w).

(** [req.user = decoded] *)
Definition assign_user (decoded : Claims) : M unit :=
  fun w => (Normal tt, with_req (set_user decoded) w).

(** [next()] hands the request on; what the later handlers do is outside
    this model, which only counts the call. *)
Definition next : M unit := fun w => (Normal tt, with_next w).

(** [console.error(...parts)] *)
Definition console_error (parts : list string) : M unit :=
  fun w => (Normal tt, with_console (String.concat " " parts) w).

(** [res.status(code)] only assigns [res.statusCode]. *)
Definition res_status (code : Z) : M unit :=
  fun w => (Normal tt, with_res (fun r => mkResponse code (sent r)) w).

(** [res.json(body)] sends the body under the current status code; once a
    response has been sent, setting its headers again throws, as Node does. *)
Definition res_json (body : JsObject) : M unit :=
  fun w => match sent (res w) with
           | Some _ => (Throw ERR_HTTP_HEADERS_SENT, w)
           | None =>
               (Normal tt,
                with_res (fun r => mkResponse (statusCode r) (Some (statusCode r, body))) w)
           end.

(** [requests.has(k)], [requests.get(k)], [requests.set(k, v)] *)
Definition requests_has (k : string) : M bool :=
  fun w => (Normal (bool_decide (is_Some (requests w !! k))), w).

Definition requests_get (k : string) : M (option (list Z)) :=
  fun w => (Normal (requests w !! k), w).

Definition requests_set (k : string) (v : list Z) : M unit :=
  fun w => (Normal tt, with_requests (fun m => <[k := v]> m) w).

(** ** [middleware/auth.js]: class [AuthMiddleware] *)

Module AuthMiddleware.

(** [extractToken(req)]: [null] for a missing or empty header, the text
    after ["Bearer "] when the header starts with it, else the header. *)
Definition extractToken (r : Request) : option string :=
  match headers_authorization r with
  | None => None
  | Some authHeader =>
      if String.eqb authHeader "" then None
      else if String.prefix "Bearer " authHeader
           then Some (substring_from 7 authHeader)
           else Some authHeader
  end.

(** [!token] for a value that is [null] or a string. *)
Definition falsy (token : option string) : bool :=
  match token with
  | None => true
  | Some t => String.eqb t ""
  end.

Section WithJwt.

(** The [jsonwebtoken] library is outside the repository: [jwt.verify(token,
    secret)] is a parameter, a function of the token, the secret and the time
    of the call that returns the payload or the error it throws. *)
Variable jwt_verify : string -> string -> Z -> JsError + Claims.
Variable JWT_SECRET : string.

Definition jwt_verify_call (token secret : string) : M Claims :=
  fun w => match jwt_verify token secret (clock w) with
           | inr decoded => (Normal decoded, w)
           | inl error => (Throw error, w)
           end.

Definition verifyToken (token : string) : M (option Claims) :=
  try_catch
    (decoded <- jwt_verify_call token JWT_SECRET ;;
     ret (Some decoded))
    (fun error =>
       console_error ["Token verification failed:"; error_message error] ;;;
       ret None).

Definition authenticate : M unit :=
  try_catch
    (r <- get_req ;;
     let token := extractToken r in
     if falsy token then
       res_status 401 ;;;
       res_json [("success", JBool false);
                 ("message", JStr "Access denied. No token provided.")]
     else
       decoded <- verifyToken (default "" token) ;;
       match decoded with
       | None =>
           res_status 401 ;;;
           res_json [("success", JBool false);
                     ("message", JStr "Invalid or expired token.")]
       | Some decoded =>
           if String.eqb (user_status decoded) "deleted" then
             res_status 401 ;;;
             res_json [("success", JBool false);
                       ("message", JStr "Account has been deactivated.")]
           else
             assign_user decoded ;;;
             next
       end)
    (fun error =>
       console_error ["Authentication middleware error:"; error_toString error] ;;;
       res_status 500 ;;;
       res_json [("success", JBool false);
                 ("message", JStr "Internal server error during authentication.")]).

Definition optionalAuth : M unit :=
  try_catch
    (r <- get_req ;;
     let token := extractToken r in
     (if negb (falsy token) then
        decoded <- verifyToken (default "" token) ;;
        match decoded with
        | Some decoded =>
            if negb (String.eqb (user_status decoded) "deleted")
            then assign_user decoded
            else ret tt
        | None => ret tt
        end
      else ret tt) ;;;
     next)
    (fun error =>
       console_error ["Optional authentication middleware error:"; error_toString error] ;;;
       next).

End WithJwt.

(** [allowedRoles.includes(role)] *)
Definition includes (allowedRoles : list string) (role : string) : bool :=
  existsb (String.eqb role) allowedRoles.

Definition authorize (allowedRoles : list string) : M unit :=
  try_catch
    (r <- get_req ;;
     match user r with
     | None =>
         res_status 401 ;;;
         res_json [("success", JBool false);
                   ("message", JStr "Authentication required.")]
     | Some u =>
         if (length allowedRoles =? 0)%nat then next
         else if negb (includes allowedRoles (user_role u)) then
           res_status 403 ;;;
           res_json [("success", JBool false);
                     ("message", JStr "Access denied. Insufficient permissions.");
                     ("requiredRoles", JArr (map JStr allowedRoles));
                     ("userRole", JStr (user_role u))]
         else next
     end)
    (fun error =>
       console_error ["Authorization middleware error:"; error_toString error] ;;;
       res_status 500 ;;;
       res_json [("success", JBool false);
                 ("message", JStr "Internal server error during authorization.")]).

Definition adminOnly : M unit := authorize ["admin"].

Definition moderatorAndAbove : M unit := authorize ["admin"; "moderator"].

Definition coordinatorAndAbove : M unit :=
  authorize ["admin"; "moderator"; "coordinator"].

(** [targetUserId === currentUserId], where [targetUserId] is
    [req.params[userIdParam]] and may be [undefined]. *)
Definition strict_equal (targetUserId : option string) (currentUserId : string) : bool :=
  match targetUserId with
  | Some t => String.eqb t currentUserId
  | None => false
  end.

Definition selfOrAdmin (userIdParam : string) : M unit :=
  try_catch
    (r <- get_req ;;
     match user r with
     | None =>
         res_status 401 ;;;
         res_json [("success", JBool false);
                   ("message", JStr "Authentication required.")]
     | Some u =>
         let targetUserId := params r !! userIdParam in
         let currentUserId := user_id u in
         let userRole := user_role u in
         if String.eqb userRole "admin" then next
         else if strict_equal targetUserId currentUserId then next
         else
           res_status 403 ;;;
           res_json [("success", JBool false);
                     ("message", JStr "Access denied. You can only access your own data.")]
     end)
    (fun error =>
       console_error ["Self or admin middleware error:"; error_toString error] ;;;
       res_status 500 ;;;
       res_json [("success", JBool false);
                 ("message", JStr "Internal server error during authorization.")]).

(** [rateLimit(maxRequests, windowMs)] returns a middleware that closes over
    the [requests] map; the map is the [requests] field of the world.
    [rateLimit_try] is the block under [try], [rateLimit_catch] the one under
    [catch]. *)
Definition rateLimit_try (maxRequests windowMs : Z) : M unit :=
  r <- get_req ;;
  let identifier := match user r with
                    | Some u => user_id u
                    | None => ip r
                    end in
  now <- Date_now ;;
  let windowStart := (now - windowMs)%Z in
  has <- requests_has identifier ;;
  (if has then
     userRequests <- requests_get identifier ;;
     let validRequests :=
       filter (fun time => (time > windowStart)%Z) (default [] userRequests) in
     requests_set identifier validRequests
   else ret tt) ;;;
  stored <- requests_get identifier ;;
  let currentRequests := default [] stored in
  if (Z.of_nat (length currentRequests) >=? maxRequests)%Z then
    res_status 429 ;;;
    res_json [("success", JBool false);
              ("message", JStr "Too many requests. Please try again later.");
              ("retryAfter", JNum (Math_ceil_div windowMs 1000))]
  else
    requests_set identifier (currentRequests ++ [now]) ;;;
    next.

Definition rateLimit_catch (error : JsError) : M unit :=
  console_error ["Rate limit middleware error:"; error_toString error] ;;;
  next.

Definition rateLimit (maxRequests windowMs : Z) : M unit :=
  try_catch (rateLimit_try maxRequests windowMs) rateLimit_catch.

(** [verifiedOnly(req, res, next)] *)
Definition verifiedOnly : M unit :=
  try_catch
    (r <- get_req ;;
     match user r with
     | None =>
         res_status 401 ;;;
         res_json [("success", JBool false);
                   ("message", JStr "Authentication required.")]
     | Some u =>
         if negb (String.eqb (user_status u) "verified") then
           res_status 403 ;;;
           res_json [("success", JBool false);
                     ("message", JStr "Account verification required.");
                     ("userStatus", JStr (user_status u))]
         else next
     end)
    (fun error =>
       console_error ["Verified only middleware error:"; error_toString error] ;;;
       res_status 500 ;;;
       res_json [("success", JBool false);
                 ("message", JStr "Internal server error during verification check.")]).

End AuthMiddleware.

(** ** Sinks outside the middleware *)

(** [logger.error(...parts)] of [utils/logger.js] *)
Definition logger_error (parts : list string) : M unit :=
  fun w => (Normal tt, with_logger (String.concat " " parts) w).

(** [successResponse(res, data, message, code)] and [errorResponse(res,
    message, code)] of [utils/response.js]: the call is recorded. *)
Definition successResponse (data : option Json) (message : option string)
    (code : option Z) : M unit :=
  fun w => (Normal tt, with_reply (successResponse_call data message code) w).

Definition errorResponse (message : option string) (code : Z) : M unit :=
  fun w => (Normal tt, with_reply (errorResponse_call message code) w).

(** [utils/constants.js] *)
Module USER_ROLES.
Definition ADMIN : string := "admin".
Definition MODERATOR : string := "moderator".
Definition COORDINATOR : string := "coordinator".
Definition USER : string := "user".
Definition values : list string := [ADMIN; MODERATOR; COORDINATOR; USER].
End USER_ROLES.

Module USER_STATUS.
Definition VERIFIED : string := "verified".
Definition PENDING : string := "pending".
Definition DELETED : string := "deleted".
Definition values : list string := [VERIFIED; PENDING; DELETED].
End USER_STATUS.

Module HTTP_STATUS.
Definition OK : Z := 200.
Definition CREATED : Z := 201.
Definition BAD_REQUEST : Z := 400.
Definition UNAUTHORIZED : Z := 401.
Definition FORBIDDEN : Z := 403.
Definition NOT_FOUND : Z := 404.
Definition CONFLICT : Z := 409.
Definition INTERNAL_SERVER_ERROR : Z := 500.
End HTTP_STATUS.

(** The object a service method resolves to: [{ success, message, data }],
    with the properties a branch does not write absent. *)
Record ServiceResult (A : Type) : Type := mkResult {
  success : bool;
  message : option string;
  data : option A
}.
Arguments mkResult {A} success message data.
Arguments success {A} _.
Arguments message {A} _.
Arguments data {A} _.

(** ** The schema of [models/User.js] *)

Module UserSchema.

Definition paths : list string :=
  ["email"; "phone"; "name"; "password"; "role"; "status"].

Definition is_digit (c : ascii) : bool :=
  ((48 <=? nat_of_ascii c) && (nat_of_ascii c <=? 57))%nat.

(** The [validator] of [phone]: [/^[6-9][0-9]{9}$/.test(v)] *)
Definition phone_validator (v : string) : bool :=
  match v with
  | EmptyString => false
  | String c rest =>
      ((54 <=? nat_of_ascii c) && (nat_of_ascii c <=? 57))%nat
      && (String.length rest =? 9)%nat
      && forallb is_digit (list_ascii_of_string rest)
  end.

Definition required (path v : string) : option string :=
  if String.eqb v "" then Some ("Path `" +:+ path +:+ "` is required.") else None.

Definition minlength (n : nat) (limit path v : string) : option string :=
  if (String.length v <? n)%nat
  then Some ("Path `" +:+ path +:+ "` (`" +:+ v +:+
             "`) is shorter than the minimum allowed length (" +:+ limit +:+ ").")
  else None.

Definition maxlength (n : nat) (limit path v : string) : option string :=
  if (n <? String.length v)%nat
  then Some ("Path `" +:+ path +:+ "` (`" +:+ v +:+
             "`) is longer than the maximum allowed length (" +:+ limit +:+ ").")
  else None.

Definition enum (values : list string) (path v : string) : option string :=
  if existsb (String.eqb v) values then None
  else Some ("`" +:+ v +:+ "` is not a valid enum value for path `" +:+ path +:+ "`.").

(** The first validator of [path] that rejects [v], with its message. *)
Definition first_error (checks : list (option string)) : option string :=
  List.fold_right (fun c later => match c with Some m => Some m | None => later end)
                  None checks.

Definition validate (path v : string) : option string :=
  if String.eqb path "email" then first_error [required path v]
  else if String.eqb path "phone" then
    first_error [required path v;
                 if phone_validator v then None
                 else Some "Phone number must be a valid 10-digit Indian number"]
  else if String.eqb path "name" then
    first_error [required path v; minlength 2 "2" path v; maxlength 100 "100" path v]
  else if String.eqb path "password" then
    first_error [required path v; minlength 6 "6" path v]
  else if String.eqb path "role" then first_error [enum USER_ROLES.values path v]
  else if String.eqb path "status" then first_error [enum USER_STATUS.values path v]
  else None.

(** [doc[path] = v] for a path of the schema. *)
Definition assign (path v : string) (d : User.Doc) : User.Doc :=
  if String.eqb path "email" then
    User.mkDoc (User._id d) v (User.phone d) (User.name d) (User.password d)
               (User.role d) (User.status d)
  else if String.eqb path "phone" then
    User.mkDoc (User._id d) (User.email d) v (User.name d) (User.password d)
               (User.role d) (User.status d)
  else if String.eqb path "name" then
    User.mkDoc (User._id d) (User.email d) (User.phone d) v (User.password d)
               (User.role d) (User.status d)
  else if String.eqb path "password" then
    User.mkDoc (User._id d) (User.email d) (User.phone d) (User.name d) (Some v)
               (User.role d) (User.status d)
  else if String.eqb path "role" then
    User.mkDoc (User._id d) (User.email d) (User.phone d) (User.name d) (User.password d)
               v (User.status d)
  else if String.eqb path "status" then
    User.mkDoc (User._id d) (User.email d) (User.phone d) (User.name d) (User.password d)
               (User.role d) v
  else d.

(** [select('-password')] and [delete userResponse.password] *)
Definition without_password (d : User.Doc) : User.Doc :=
  User.mkDoc (User._id d) (User.email d) (User.phone d) (User.name d) None
             (User.role d) (User.status d).

(** The document as the JSON a response carries. *)
Definition toJSON (d : User.Doc) : Json :=
  JObj ([("_id", JStr (User._id d)); ("email", JStr (User.email d));
         ("phone", JStr (User.phone d)); ("name", JStr (User.name d))]
        ++ match User.password d with
           | Some p => [("password", JStr p)]
           | None => []
           end
        ++ [("role", JStr (User.role d)); ("status", JStr (User.status d))]).

End UserSchema.

(** ** The libraries outside the repository *)

(** The payload [generateToken] signs. *)
Record TokenPayload : Type := mkPayload {
  payload_id : string;
  payload_email : string;
  payload_role : string;
  payload_status : string
}.

(** What the code takes from [mongoose], [bcryptjs], [jsonwebtoken], the
    string methods of the runtime and [config/index.js].  [bcrypt_hash] stands
    for [bcrypt.hash] with the salt it draws, [jwt_sign] for [jwt.sign] at a
    given time. *)
Class Libraries : Type := {
  isValidObjectId : string -> bool;
  String_toLowerCase : string -> string;
  String_trim : string -> string;
  castError_message : string -> Json -> string -> string;
  bcrypt_compare : string -> string -> bool;
  bcrypt_hash : string -> Z -> string;
  jwt_sign : TokenPayload -> string -> string -> Z -> string;
  config_jwt_secret : string;
  config_jwt_expiresIn : string
}.

(** ** The operations of Mongoose the services call

    Queries cast their filter, then go to the server.  An update document is
    cast against the schema as Mongoose does: a top-level key that is not an
    operator is an assignment, [$set] lists assignments, a path outside
    [UserSchema.paths] is dropped, and the setters of a path run on its value.
    Two limits of the model: a value that is not a string fails the cast
    (Mongoose would cast a number or a boolean to text), and an operator other
    than [$set] is refused. *)

Module Mongoose.

Definition replace_first {A : Type} (p : A -> bool) (d' : A) : list A -> list A :=
  fix go (l : list A) : list A :=
    match l with
    | [] => []
    | d :: rest => if p d then d' :: rest else d :: go rest
    end.

(** The first document with the greatest [loggedInAt]:
    [sort({ loggedInAt: -1 }).limit(1)]. *)
Fixpoint latest (l : list Log.Doc) : option Log.Doc :=
  match l with
  | [] => None
  | d :: rest =>
      match latest rest with
      | Some d' => if (Log.loggedInAt d <? Log.loggedInAt d')%Z then Some d' else Some d
      | None => Some d
      end
  end.

Definition set_loggedOutAt (date : Z) (d : Log.Doc) : Log.Doc :=
  Log.mkDoc (Log._id d) (Log.loginId d) (Log.email d) (Log.loggedInAt d) (Log.ip d)
            (Log.os d) (Log.browser d) (Some date).

Section Driver.

Context `{Libraries}.

Definition connected : M unit :=
  fun w => match fault (db w) with
           | Some m => (Throw (Error m), w)
           | None => (Normal tt, w)
           end.

Definition castObjectId (path id : string) : M unit :=
  if isValidObjectId id then ret tt
  else throw (CastError (castError_message "ObjectId" (JStr id) path)).

Definition get_users : M (list User.Doc) := fun w => (Normal (users (db w)), w).

Definition set_users (l : list User.Doc) : M unit :=
  fun w => (Normal tt, with_db (fun d => mkDatabase l (logs d) (fault d)) w).

Definition get_logs : M (list Log.Doc) := fun w => (Normal (logs (db w)), w).

Definition set_logs (l : list Log.Doc) : M unit :=
  fun w => (Normal tt, with_db (fun d => mkDatabase (users d) l (fault d)) w).

(** The setters of the schema: [lowercase] and [trim] on [email], [trim] on
    [name]. *)
Definition setters (path v : string) : string :=
  if String.eqb path "email" then String_toLowerCase (String_trim v)
  else if String.eqb path "name" then String_trim v
  else v.

Definition has_id (id : string) (d : User.Doc) : bool := String.eqb (User._id d) id.

Definition has_email (email : string) (d : User.Doc) : bool :=
  String.eqb (User.email d) (setters "email" email).

(** [User.findOne({ email })] *)
Definition User_findOne_email (email : string) : M (option User.Doc) :=
  connected ;;;
  docs <- get_users ;;
  ret (List.find (has_email email) docs).

(** [User.find({ email })] and [User.find({ _id: userId })] *)
Definition User_find_email (email : string) : M (list User.Doc) :=
  connected ;;;
  docs <- get_users ;;
  ret (List.filter (has_email email) docs).

Definition User_find_id (userId : string) : M (list User.Doc) :=
  castObjectId "_id" userId ;;;
  connected ;;;
  docs <- get_users ;;
  ret (List.filter (has_id userId) docs).

(** [User.findById(userId).select('-password')] *)
Definition User_findById_select (userId : string) : M (option User.Doc) :=
  castObjectId "_id" userId ;;;
  connected ;;;
  docs <- get_users ;;
  ret (UserSchema.without_password <$> List.find (has_id userId) docs).

Definition cast_path (path : string) (v : Json) : JsError + list (string * string) :=
  if existsb (String.eqb path) UserSchema.paths then
    match v with
    | JStr s => inr [(path, setters path s)]
    | _ => inl (CastError (castError_message "string" v path))
    end
  else inr [].

Fixpoint cast_fields (fields : JsObject) : JsError + list (string * string) :=
  match fields with
  | [] => inr []
  | (path, v) :: rest =>
      match cast_path path v with
      | inl e => inl e
      | inr a =>
          match cast_fields rest with
          | inl e => inl e
          | inr b => inr (a ++ b)
          end
      end
  end.

Definition cast_key (key : string) (v : Json) : JsError + list (string * string) :=
  if String.eqb key "$set" then
    match v with
    | JObj fields => cast_fields fields
    | _ => inl (CastError (castError_message "object" v key))
    end
  else if String.prefix "$" key then
    inl (Error ("Update operator " +:+ key +:+ " is not modelled"))
  else cast_path key v.

Fixpoint cast_update (update : JsObject) : JsError + list (string * string) :=
  match update with
  | [] => inr []
  | (key, v) :: rest =>
      match cast_key key v with
      | inl e => inl e
      | inr a =>
          match cast_update rest with
          | inl e => inl e
          | inr b => inr (a ++ b)
          end
      end
  end.

(** The update validators: the validators of each assigned path. *)
Definition validation_errors (assignments : list (string * string)) : list (string * string) :=
  omap (fun a => (fun m => (fst a, m)) <$> UserSchema.validate (fst a) (snd a)) assignments.

Definition apply_assignments (assignments : list (string * string)) (d : User.Doc) : User.Doc :=
  fold_left (fun d a => UserSchema.assign (fst a) (snd a) d) assignments d.

(** [User.findByIdAndUpdate(userId, update, { new: true, runValidators })]:
    the updated document, or [null] when no document has the id. *)
Definition User_findByIdAndUpdate (userId : string) (update : JsObject)
    (runValidators : bool) : M (option User.Doc) :=
  castObjectId "_id" userId ;;;
  match cast_update update with
  | inl e => throw e
  | inr assignments =>
      (if runValidators then
         match validation_errors assignments with
         | [] => ret tt
         | errors => throw (ValidationError errors)
         end
       else ret tt) ;;;
      connected ;;;
      docs <- get_users ;;
      match List.find (has_id userId) docs with
      | None => ret None
      | Some d =>
          let d' := apply_assignments assignments d in
          set_users (replace_first (has_id userId) d' docs) ;;;
          ret (Some d')
      end
  end.

Definition log_has_id (id : string) (d : Log.Doc) : bool := String.eqb (Log._id d) id.

(** [Log.findByIdAndUpdate(logId, { loggedOutAt: date })]: the document as it
    was before the update, or [null]. *)
Definition Log_findByIdAndUpdate_loggedOutAt (logId : string) (date : Z) : M (option Log.Doc) :=
  castObjectId "_id" logId ;;;
  connected ;;;
  docs <- get_logs ;;
  match List.find (log_has_id logId) docs with
  | None => ret None
  | Some d =>
      set_logs (replace_first (log_has_id logId) (set_loggedOutAt date d) docs) ;;;
      ret (Some d)
  end.

(** [Log.updateMany({ _id: logId }, { $set: { loggedOutAt: date } })]
    resolved to its [modifiedCount]; the schema stamps [updatedAt], so every
    matched document counts as modified. *)
Definition Log_updateMany_id_loggedOutAt (logId : string) (date : Z) : M Z :=
  castObjectId "_id" logId ;;;
  connected ;;;
  docs <- get_logs ;;
  set_logs (map (fun d => if log_has_id logId d then set_loggedOutAt date d else d) docs) ;;;
  ret (Z.of_nat (length (List.filter (log_has_id logId) docs))).

(** [Log.findOne({ loginId: userId }).sort({ loggedInAt: -1 }).limit(1)] *)
Definition Log_findOne_loginId_latest (userId : string) : M (option Log.Doc) :=
  castObjectId "loginId" userId ;;;
  connected ;;;
  docs <- get_logs ;;
  ret (latest (List.filter (fun d => String.eqb (Log.loginId d) userId) docs)).

End Driver.

End Mongoose.

(** ** The calls of [bcryptjs] *)

Module Bcrypt.

Section Calls.

Context `{Libraries}.

(** [bcrypt.hash(value, rounds)] rejects a value that is not a string. *)
Definition hash (value : Json) (rounds : Z) : M string :=
  match value with
  | JStr s => ret (bcrypt_hash s rounds)
  | _ => throw (Error ("Illegal arguments: " +:+ typeof value +:+ ", number"))
  end.

(** [bcrypt.compare(password, hashedPassword)]: the password is a value of
    the request body, which the controllers forward after a truthiness test
    only.  A password that is not a string, or a missing hash, is rejected
    with the types of the two arguments. *)
Definition compare (password : Json) (hashedPassword : option string) : M bool :=
  match password, hashedPassword with
  | JStr s, Some h => ret (bcrypt_compare s h)
  | _, _ =>
      throw (Error ("Illegal arguments: " +:+ typeof password +:+ ", " +:+
                    match hashedPassword with
                    | Some _ => "string"
                    | None => "undefined"
                    end))
  end.

End Calls.

End Bcrypt.

(** ** [db/db.js]: the wrappers of class [DB] around a query *)

Module DB.

(** [DB.select]: log and rethrow. *)
Definition select {A : Type} (query : M A) : M A :=
  try_catch query
    (fun err => console_error ["Select Error:"; error_toString err] ;;; throw err).

(** [DB.update]: the [modifiedCount] of the query, [0] when it fails. *)
Definition update (query : M Z) : M Z :=
  try_catch query
    (fun err => console_error ["Update Error:"; error_toString err] ;;; ret 0%Z).

End DB.

(** ** [services/auth.service.js]: class [AuthService] *)

Module AuthService.

Section Service.

Context `{Libraries}.

Definition generateToken (user : User.Doc) : M string :=
  now <- Date_now ;;
  let payload := mkPayload (User._id user) (User.email user) (User.role user)
                           (User.status user) in
  ret (jwt_sign payload config_jwt_secret config_jwt_expiresIn now).

Definition hashPassword (password : string) : M string :=
  Bcrypt.hash (JStr password) 12.

Definition comparePassword (password : Json) (hashedPassword : option string) : M bool :=
  Bcrypt.compare password hashedPassword.

Definition login (email : string) (password : Json)
    : M (ServiceResult (User.Doc * string)) :=
  try_catch
    (found <- Mongoose.User_findOne_email email ;;
     match found with
     | None => ret (mkResult false (Some "Invalid email or password") None)
     | Some user =>
         if String.eqb (User.status user) "deleted" then
           ret (mkResult false (Some "Account has been deactivated") None)
         else
           isPasswordValid <- comparePassword password (User.password user) ;;
           if negb isPasswordValid then
             ret (mkResult false (Some "Invalid email or password") None)
           else
             let userResponse := UserSchema.without_password user in
             token <- generateToken user ;;
             ret (mkResult true (Some "Login successful") (Some (userResponse, token)))
     end)
    (fun error =>
       logger_error ["AuthService.login error:"; error_toString error] ;;;
       ret (mkResult false (Some (error_message error)) None)).

Definition updateLogoutTime (logId : string) : M (ServiceResult unit) :=
  try_catch
    (now <- Date_now ;;
     Mongoose.Log_findByIdAndUpdate_loggedOutAt logId now ;;;
     ret (mkResult true (Some "Logout time updated") None))
    (fun error =>
       logger_error ["AuthService.updateLogoutTime error:"; error_toString error] ;;;
       ret (mkResult false (Some (error_message error)) None)).

Definition getLastLogin (userId : string) : M (ServiceResult Log.Doc) :=
  try_catch
    (log <- Mongoose.Log_findOne_loginId_latest userId ;;
     match log with
     | None => ret (mkResult false (Some "No login history found") None)
     | Some log => ret (mkResult true None (Some log))
     end)
    (fun error =>
       logger_error ["AuthService.getLastLogin error:"; error_toString error] ;;;
       ret (mkResult false (Some (error_message error)) None)).

End Service.

End AuthService.

(** ** [services/user.service.js]: class [UserService] *)

Module UserService.

Section Service.

Context `{Libraries}.

Definition getUserById (userId : string) : M (ServiceResult User.Doc) :=
  try_catch
    (found <- Mongoose.User_findById_select userId ;;
     match found with
     | None => ret (mkResult false (Some "User not found") None)
     | Some user => ret (mkResult true None (Some user))
     end)
    (fun error =>
       logger_error ["UserService.getUserById error:"; error_toString error] ;;;
       ret (mkResult false (Some (error_message error)) None)).

Definition updateUser (userId : string) (updateData : JsObject) : M (ServiceResult User.Doc) :=
  try_catch
    (updateData <-
       match js_get "password" updateData with
       | Some v =>
           if truthy v then
             hashed <- Bcrypt.hash v 12 ;;
             ret (js_set "password" (JStr hashed) updateData)
           else ret updateData
       | None => ret updateData
       end ;;
     found <- Mongoose.User_findByIdAndUpdate userId updateData true ;;
     match found with
     | None => ret (mkResult false (Some "User not found") None)
     | Some user =>
         ret (mkResult true (Some "User updated successfully")
                       (Some (UserSchema.without_password user)))
     end)
    (fun error =>
       logger_error ["UserService.updateUser error:"; error_toString error] ;;;
       ret (mkResult false (Some (error_message error)) None)).

Definition deleteUser (userId : string) : M (ServiceResult User.Doc) :=
  try_catch
    (found <- Mongoose.User_findByIdAndUpdate userId [("status", JStr "deleted")] false ;;
     match found with
     | None => ret (mkResult false (Some "User not found") None)
     | Some user => ret (mkResult true (Some "User deleted successfully") None)
     end)
    (fun error =>
       logger_error ["UserService.deleteUser error:"; error_toString error] ;;;
       ret (mkResult false (Some (error_message error)) None)).

Definition verifyUser (userId : string) : M (ServiceResult User.Doc) :=
  try_catch
    (found <- Mongoose.User_findByIdAndUpdate userId [("status", JStr "verified")] false ;;
     match found with
     | None => ret (mkResult false (Some "User not found") None)
     | Some user =>
         ret (mkResult true (Some "User verified successfully")
                       (Some (UserSchema.without_password user)))
     end)
    (fun error =>
       logger_error ["UserService.verifyUser error:"; error_toString error] ;;;
       ret (mkResult false (Some (error_message error)) None)).

End Service.

End UserService.

(** ** [services/auth/userService.js]: the earlier class [UserService] *)

Module LegacyUserService.

Section Service.

Context `{Libraries}.

Definition getUserById (userId : string) : M (ServiceResult User.Doc) :=
  try_catch
    (found <- DB.select (Mongoose.User_find_id userId) ;;
     match found with
     | [] => ret (mkResult false (Some "User not found") None)
     | first :: _ => ret (mkResult true None (Some (UserSchema.without_password first)))
     end)
    (fun error =>
       console_error ["UserService.getUserById Error:"; error_toString error] ;;;
       ret (mkResult false (Some (error_message error)) None)).

Definition getUserByEmail (email : string) : M (ServiceResult User.Doc) :=
  try_catch
    (found <- DB.select (Mongoose.User_find_email email) ;;
     match found with
     | [] => ret (mkResult false (Some "User not found") None)
     | first :: _ => ret (mkResult true None (Some first))
     end)
    (fun error =>
       console_error ["UserService.getUserByEmail Error:"; error_toString error] ;;;
       ret (mkResult false (Some (error_message error)) None)).

Definition authenticateUser (email : string) (password : Json)
    : M (ServiceResult User.Doc) :=
  try_catch
    (userResult <- getUserByEmail email ;;
     if negb (success userResult) then
       ret (mkResult false (Some "Invalid email or password") None)
     else
       match data userResult with
       | None => throw (TypeError "Cannot read properties of undefined (reading 'status')")
       | Some user =>
           if String.eqb (User.status user) "deleted" then
             ret (mkResult false (Some "Account has been deactivated") None)
           else
             isPasswordValid <- Bcrypt.compare password (User.password user) ;;
             if negb isPasswordValid then
               ret (mkResult false (Some "Invalid email or password") None)
             else
               ret (mkResult true (Some "Authentication successful")
                             (Some (UserSchema.without_password user)))
       end)
    (fun error =>
       console_error ["UserService.authenticateUser Error:"; error_toString error] ;;;
       ret (mkResult false (Some (error_message error)) None)).

End Service.

End LegacyUserService.

(** ** [services/auth/logService.js]: the earlier class [LogService] *)

Module LogService.

Section Service.

Context `{Libraries}.

Definition updateLogoutTime (logId : string) : M (ServiceResult unit) :=
  try_catch
    (now <- Date_now ;;
     modifiedCount <- DB.update (Mongoose.Log_updateMany_id_loggedOutAt logId now) ;;
     if (modifiedCount =? 0)%Z then
       ret (mkResult false (Some "Log entry not found") None)
     else
       ret (mkResult true (Some "Logout time updated successfully") None))
    (fun error =>
       console_error ["LogService.updateLogoutTime Error:"; error_toString error] ;;;
       ret (mkResult false (Some (error_message error)) None)).

End Service.

End LogService.

(** ** [controllers/auth/auth.controller.js]: class [AuthController] *)

Module AuthController.

(** [getClientOS(req)] and [getClientBrowser(req)]: the first name, in the
    order of the tests, that the user agent contains. *)
Definition getClientOS (r : Request) : string :=
  let userAgent := default "" (headers_user_agent r) in
  if String_includes userAgent "Windows" then "Windows"
  else if String_includes userAgent "Mac OS" then "macOS"
  else if String_includes userAgent "Linux" then "Linux"
  else if String_includes userAgent "Android" then "Android"
  else if String_includes userAgent "iOS" then "iOS"
  else "Unknown".

Definition getClientBrowser (r : Request) : string :=
  let userAgent := default "" (headers_user_agent r) in
  if String_includes userAgent "Chrome" then "Chrome"
  else if String_includes userAgent "Firefox" then "Firefox"
  else if String_includes userAgent "Safari" then "Safari"
  else if String_includes userAgent "Edge" then "Edge"
  else if String_includes userAgent "Opera" then "Opera"
  else "Unknown".

Section Controller.

Context `{Libraries}.

(** [req.user.id], which throws when [req.user] is missing. *)
Definition req_user_id : M string :=
  r <- get_req ;;
  match user r with
  | Some u => ret (user_id u)
  | None => throw (TypeError "Cannot read properties of undefined (reading 'id')")
  end.

Definition logout : M unit :=
  try_catch
    (r <- get_req ;;
     match user r with
     | Some u =>
         lastLoginResult <- AuthService.getLastLogin (user_id u) ;;
         if success lastLoginResult then
           match data lastLoginResult with
           | Some log => AuthService.updateLogoutTime (Log._id log) ;;; ret tt
           | None => throw (TypeError "Cannot read properties of undefined (reading '_id')")
           end
         else ret tt
     | None => ret tt
     end ;;;
     successResponse (Some JNull) (Some "Logout successful") None)
    (fun error =>
       errorResponse (Some "Logout failed") HTTP_STATUS.INTERNAL_SERVER_ERROR).

Definition getProfile : M unit :=
  try_catch
    (id <- req_user_id ;;
     result <- UserService.getUserById id ;;
     if negb (success result) then
       errorResponse (message result) HTTP_STATUS.NOT_FOUND
     else
       successResponse (UserSchema.toJSON <$> data result)
                       (Some "Profile retrieved successfully") None)
    (fun error =>
       errorResponse (Some "Failed to get profile") HTTP_STATUS.INTERNAL_SERVER_ERROR).

Definition updateProfile : M unit :=
  try_catch
    (r <- get_req ;;
     let updateData := body r in
     let updateData := js_delete "password" updateData in
     let updateData := js_delete "role" updateData in
     let updateData := js_delete "status" updateData in
     id <- req_user_id ;;
     result <- UserService.updateUser id updateData ;;
     if negb (success result) then
       errorResponse (message result) HTTP_STATUS.BAD_REQUEST
     else
       successResponse (UserSchema.toJSON <$> data result) (message result) None)
    (fun error =>
       errorResponse (Some "Failed to update profile") HTTP_STATUS.INTERNAL_SERVER_ERROR).

(** [AuthController.verifyToken(req, res)] *)
Definition verifyToken : M unit :=
  r <- get_req ;;
  match user r with
  | None => errorResponse (Some "Invalid token") HTTP_STATUS.UNAUTHORIZED
  | Some u =>
      successResponse
        (Some (JObj [("user", JObj [("id", JStr (user_id u));
                                    ("email", JStr (user_email u));
                                    ("role", JStr (user_role u));
                                    ("status", JStr (user_status u));
                                    ("iat", JNum (user_iat u));
                                    ("exp", JNum (user_exp u))])]))
        (Some "Token is valid") None
  end.

End Controller.

End AuthController.

(** ** [middleware/auth.middleware.js]: the later middleware *)

Module auth_middleware.

Section WithJwt.

Variable jwt_verify : string -> string -> Z -> JsError + Claims.
Context `{Libraries}.

Definition authenticate : M unit :=
  try_catch
    (r <- get_req ;;
     match headers_authorization r with
     | None => errorResponse (Some "Access denied. No token provided.") 401
     | Some authHeader =>
         if String.eqb authHeader "" || negb (String.prefix "Bearer " authHeader) then
           errorResponse (Some "Access denied. No token provided.") 401
         else
           let token := substring_from 7 authHeader in
           decoded <- AuthMiddleware.jwt_verify_call jwt_verify token config_jwt_secret ;;
           if String.eqb (user_status decoded) "deleted" then
             errorResponse (Some "Account has been deactivated.") 401
           else
             assign_user decoded ;;;
             next
     end)
    (fun error =>
       if String.eqb (error_name error) "JsonWebTokenError" then
         errorResponse (Some "Invalid token.") 401
       else if String.eqb (error_name error) "TokenExpiredError" then
         errorResponse (Some "Token expired.") 401
       else errorResponse (Some "Authentication failed.") 401).

End WithJwt.

Definition authorize (roles : list string) : M unit :=
  r <- get_req ;;
  match user r with
  | None => errorResponse (Some "Authentication required.") 401
  | Some u =>
      if (length roles =? 0)%nat then next
      else if negb (AuthMiddleware.includes roles (user_role u)) then
        errorResponse (Some "Access denied. Insufficient permissions.") 403
      else next
  end.

Definition adminOnly : M unit := authorize [USER_ROLES.ADMIN].

Definition moderatorAndAbove : M unit :=
  authorize [USER_ROLES.ADMIN; USER_ROLES.MODERATOR].

Definition coordinatorAndAbove : M unit :=
  authorize [USER_ROLES.ADMIN; USER_ROLES.MODERATOR; USER_ROLES.COORDINATOR].

Definition selfOrAdmin (userIdParam : string) : M unit :=
  r <- get_req ;;
  match user r with
  | None => errorResponse (Some "Authentication required.") 401
  | Some u =>
      let targetUserId := params r !! userIdParam in
      let currentUserId := user_id u in
      let userRole := user_role u in
      if String.eqb userRole USER_ROLES.ADMIN
         || AuthMiddleware.strict_equal targetUserId currentUserId
      then next
      else errorResponse (Some "Access denied. You can only access your own data.") 403
  end.

End auth_middleware.

(** ** Sample libraries, requests and stores *)

Module Sample.

(** A token library that knows four tokens. *)
Definition jwt_verify (token secret : string) (now : Z) : JsError + Claims :=
  if negb (String.eqb secret "s3cret") then inl (JsonWebTokenError "invalid signature")
  else if String.eqb token "deleted-admin" then
    inr (mkClaims "u1" "a@x.io" "admin" "deleted" 0 86400)
  else if String.eqb token "moderator" then
    inr (mkClaims "u1" "m@x.io" "moderator" "verified" 0 86400)
  else if String.eqb token "expired" then inl (TokenExpiredError "jwt expired")
  else if String.eqb token "forged" then inl (JsonWebTokenError "invalid signature")
  else inl (JsonWebTokenError "jwt malformed").

Definition JWT_SECRET : string := "s3cret".

Definition libraries : Libraries := {|
  isValidObjectId := fun id => (String.length id =? 24)%nat;
  String_toLowerCase := fun s => s;
  String_trim := fun s => s;
  castError_message := fun kind v path => "Cast to " +:+ kind +:+ " failed at path " +:+ path;
  bcrypt_compare := fun password h => String.eqb ("hashed:" +:+ password) h;
  bcrypt_hash := fun password rounds => "hashed:" +:+ password;
  jwt_sign := fun payload secret expiresIn now => "token-of-" +:+ payload_id payload;
  config_jwt_secret := "s3cret";
  config_jwt_expiresIn := "24h"
|}.

Definition empty_db : Database := mkDatabase [] [] None.

Definition request (authorization : option string) : Request :=
  mkRequest authorization None ∅ [] "10.0.0.1" None.

Definition request_of (u : Claims) (target : string) : Request :=
  mkRequest None None {["userId" := target]} [] "10.0.0.1" (Some u).

Definition world (r : Request) (now : Z) (d : Database) : World :=
  mkWorld r (mkResponse 200 None) 0 [] now ∅ d [] [].

Definition id1 : string := "64f000000000000000000001".
Definition id2 : string := "64f000000000000000000002".

Definition alice (status : string) : User.Doc :=
  User.mkDoc id1 "alice@x.io" "9876543210" "Alice" (Some "hashed:pw-alice") "user" status.

Definition log1 : Log.Doc :=
  Log.mkDoc id2 id1 "alice@x.io" 1000 "10.0.0.1" (Some "Linux") (Some "Firefox") None.

(** The claims of [alice]'s token. *)
Definition alice_claims : Claims := mkClaims id1 "alice@x.io" "user" "verified" 0 86400.

(** [alice], signed in, sends [body] to the profile route. *)
Definition profile_world (body : JsObject) (status : string) : World :=
  world (mkRequest None None ∅ body "10.0.0.1" (Some alice_claims)) 5000
        (mkDatabase [alice status] [log1] None).

End Sample.

(** ** Properties *)

(** The object a middleware sends with a rejection. *)
Definition rejection (text : string) : JsObject :=
  [("success", JBool false); ("message", JStr text)].

(** The world after [res.status(code).json(body)]. *)
Definition replied (code : Z) (body : JsObject) (w : World) : World :=
  with_res (fun _ => mkResponse code (Some (code, body))) w.

(** A run of a middleware hands the request on when it calls [next] once
    more than had been called before. *)
Definition calls_next (m : M unit) (w : World) : Prop :=
  next_calls (snd (m w)) = S (next_calls w).


(** The key under which [rateLimit] counts a request. *)
Definition rate_key (r : Request) : string :=
  match user r with
  | Some u => user_id u
  | None => ip r
  end.

(** The timestamps of [key] that are still inside the window at [now]. *)
Definition in_window (windowMs now : Z) (key : string) (m : gmap string (list Z)) : list Z :=
  filter (fun time => (time > now - windowMs)%Z) (default [] (m !! key)).

(** The map after the cleaning step of [rateLimit]: an entry that exists is
    replaced by its timestamps inside the window, a missing one stays missing. *)
Definition pruned (windowMs now : Z) (key : string) (m : gmap string (list Z))
    : gmap string (list Z) :=
  if bool_decide (is_Some (m !! key)) then <[key := in_window windowMs now key m]> m else m.

(** The object [rateLimit] sends with a denial. *)
Definition too_many (windowMs : Z) : JsObject :=
  [("success", JBool false);
   ("message", JStr "Too many requests. Please try again later.");
   ("retryAfter", JNum (Math_ceil_div windowMs 1000))].

(** A new request [r] reaches the server at time [now]: it has a response of
    its own, and meets the map and the stores the earlier requests left. *)
Definition arrive (r : Request) (now : Z) (w : World) : World :=
  mkWorld r (mkResponse 200 None) 0 (console w) now (requests w) (db w) (logger w)
          (replies w).

Section MiddlewareProperties.

Variable jwt_verify : string -> string -> Z -> JsError + Claims.
Variable JWT_SECRET : string.

Lemma falsy_extractToken (r : Request) (token : string) :
  AuthMiddleware.extractToken r = Some token ->
  token <> "" ->
  AuthMiddleware.falsy (AuthMiddleware.extractToken r) = false.
Proof.
  intros -> Hne. simpl. apply String.eqb_neq. exact Hne.
Qed.

(** C1: a request whose token decodes to a payload with status "deleted" is
    answered by [authenticate] with 401 "Account has been deactivated." and
    [next] is not called; [optionalAuth] calls [next] and leaves [req.user] as
    it was.  Role, signature and expiry play no part. *)
Theorem C1_deleted_account_is_rejected (w : World) (token : string) (decoded : Claims) :
  AuthMiddleware.extractToken (req w) = Some token ->
  token <> "" ->
  jwt_verify token JWT_SECRET (clock w) = inr decoded ->
  user_status decoded = "deleted" ->
  sent (res w) = None ->
  AuthMiddleware.authenticate jwt_verify JWT_SECRET w
    = (Normal tt, replied 401 (rejection "Account has been deactivated.") w)
  /\ next_calls (snd (AuthMiddleware.authenticate jwt_verify JWT_SECRET w)) = next_calls w
  /\ AuthMiddleware.optionalAuth jwt_verify JWT_SECRET w = (Normal tt, with_next w)
  /\ user (req (snd (AuthMiddleware.optionalAuth jwt_verify JWT_SECRET w))) = user (req w).
Proof.
  intros Htok Hne Hver Hdel Hsent.
  pose proof (falsy_extractToken _ _ Htok Hne) as Hfalsy.
  assert (Ha : AuthMiddleware.authenticate jwt_verify JWT_SECRET w
               = (Normal tt, replied 401 (rejection "Account has been deactivated.") w)).
  { unfold AuthMiddleware.authenticate, AuthMiddleware.verifyToken,
      AuthMiddleware.jwt_verify_call, try_catch, bind, get_req, ret.
    rewrite Hfalsy, Htok. simpl. rewrite Hver, Hdel. simpl.
    unfold res_json, res_status. simpl. rewrite Hsent.
    destruct w; reflexivity. }
  assert (Ho : AuthMiddleware.optionalAuth jwt_verify JWT_SECRET w = (Normal tt, with_next w)).
  { unfold AuthMiddleware.optionalAuth, AuthMiddleware.verifyToken,
      AuthMiddleware.jwt_verify_call, try_catch, bind, get_req, ret.
    rewrite Hfalsy, Htok. simpl. rewrite Hver, Hdel. reflexivity. }
  rewrite Ha, Ho. repeat split; reflexivity.
Qed.

(** C10 (amended): a non-empty header that does not start with "Bearer " is
    the token, whole; the header "Bearer " gives the empty token, which
    [authenticate] answers like a missing one, with 401 "Access denied. No
    token provided.". *)
Theorem C10_extractToken_edges (w : World) (authHeader : string) :
  headers_authorization (req w) = Some authHeader ->
  sent (res w) = None ->
  (authHeader <> "" -> String.prefix "Bearer " authHeader = false ->
   AuthMiddleware.extractToken (req w) = Some authHeader)
  /\ (authHeader = "Bearer " ->
      AuthMiddleware.extractToken (req w) = Some ""
      /\ AuthMiddleware.authenticate jwt_verify JWT_SECRET w
         = (Normal tt, replied 401 (rejection "Access denied. No token provided.") w)).
Proof.
  intros Hh Hsent. split.
  - intros Hne Hpre. unfold AuthMiddleware.extractToken. rewrite Hh.
    apply String.eqb_neq in Hne. rewrite Hne, Hpre. reflexivity.
  - intros ->.
    assert (He : AuthMiddleware.extractToken (req w) = Some "").
    { unfold AuthMiddleware.extractToken. rewrite Hh. reflexivity. }
    split; [exact He|].
    unfold AuthMiddleware.authenticate, try_catch, bind, get_req.
    rewrite He. simpl. unfold res_json, res_status. simpl. rewrite Hsent.
    destruct w; reflexivity.
Qed.

End MiddlewareProperties.

Lemma C1_witness :
  let w := Sample.world (Sample.request (Some "Bearer deleted-admin")) 0 Sample.empty_db in
  AuthMiddleware.authenticate Sample.jwt_verify Sample.JWT_SECRET w
    = (Normal tt, replied 401 (rejection "Account has been deactivated.") w)
  /\ next_calls (snd (AuthMiddleware.authenticate Sample.jwt_verify Sample.JWT_SECRET w))
     = next_calls w
  /\ AuthMiddleware.optionalAuth Sample.jwt_verify Sample.JWT_SECRET w
     = (Normal tt, with_next w)
  /\ user (req (snd (AuthMiddleware.optionalAuth Sample.jwt_verify Sample.JWT_SECRET w)))
     = user (req w).
Proof.
  intro w.
  apply (C1_deleted_account_is_rejected Sample.jwt_verify Sample.JWT_SECRET w
           "deleted-admin" (mkClaims "u1" "a@x.io" "admin" "deleted" 0 86400)).
  - reflexivity.
  - discriminate.
  - reflexivity.
  - reflexivity.
  - reflexivity.
Defined.

(** The empty header does not start with "Bearer ", and [extractToken]
    returns [null] for it, not the header. *)
Lemma C10_counterexample :
  String.prefix "Bearer " "" = false
  /\ AuthMiddleware.extractToken (Sample.request (Some "")) = None
  /\ AuthMiddleware.extractToken (Sample.request (Some "")) <> Some "".
Proof.
  repeat split; try reflexivity. discriminate.
Qed.

Lemma C10_witness :
  let w := Sample.world (Sample.request (Some "Bearer ")) 0 Sample.empty_db in
  AuthMiddleware.extractToken (req w) = Some ""
  /\ AuthMiddleware.authenticate Sample.jwt_verify Sample.JWT_SECRET w
     = (Normal tt, replied 401 (rejection "Access denied. No token provided.") w).
Proof.
  intro w.
  exact (proj2 (C10_extractToken_edges Sample.jwt_verify Sample.JWT_SECRET w "Bearer "
                  eq_refl eq_refl) eq_refl).
Defined.

(** *** Self access *)

Lemma selfOrAdmin_run (userIdParam : string) (w : World) (u : Claims) :
  user (req w) = Some u ->
  sent (res w) = None ->
  AuthMiddleware.selfOrAdmin userIdParam w =
    if String.eqb (user_role u) "admin"
       || AuthMiddleware.strict_equal (params (req w) !! userIdParam) (user_id u)
    then (Normal tt, with_next w)
    else (Normal tt,
          replied 403 (rejection "Access denied. You can only access your own data.") w).
Proof.
  intros Hu Hsent.
  unfold AuthMiddleware.selfOrAdmin, try_catch, bind, get_req. rewrite Hu.
  destruct (String.eqb (user_role u) "admin"); [reflexivity|].
  destruct (AuthMiddleware.strict_equal _ _); [reflexivity|].
  simpl. unfold res_json, res_status. simpl. rewrite Hsent.
  destruct w; reflexivity.
Qed.

Lemma authorize_run (allowedRoles : list string) (w : World) (u : Claims) :
  user (req w) = Some u ->
  sent (res w) = None ->
  AuthMiddleware.authorize allowedRoles w =
    if (length allowedRoles =? 0)%nat || AuthMiddleware.includes allowedRoles (user_role u)
    then (Normal tt, with_next w)
    else (Normal tt,
          replied 403 [("success", JBool false);
                       ("message", JStr "Access denied. Insufficient permissions.");
                       ("requiredRoles", JArr (map JStr allowedRoles));
                       ("userRole", JStr (user_role u))] w).
Proof.
  intros Hu Hsent.
  unfold AuthMiddleware.authorize, try_catch, bind, get_req. rewrite Hu.
  destruct (length allowedRoles =? 0)%nat; [reflexivity|].
  destruct (AuthMiddleware.includes _ _); [reflexivity|].
  simpl. unfold res_json, res_status. simpl. rewrite Hsent.
  destruct w; reflexivity.
Qed.

Lemma strict_equal_true (target : option string) (current : string) :
  AuthMiddleware.strict_equal target current = true <-> target = Some current.
Proof.
  destruct target as [t|]; simpl.
  - rewrite String.eqb_eq. split; [intros ->; reflexivity | intros [= ->]; reflexivity].
  - split; discriminate.
Qed.

Lemma with_next_calls_next (w : World) : next_calls (with_next w) = S (next_calls w).
Proof. reflexivity. Qed.

Lemma replied_not_next (code : Z) (body : JsObject) (w : World) :
  next_calls (replied code body w) <> S (next_calls w).
Proof. simpl. lia. Qed.

(** C2 (amended): for an authenticated request that has not been answered,
    [selfOrAdmin] calls [next] exactly when the target id is the subject's own
    id or [adminOnly] would call [next]; in every other case it answers 403
    "Access denied. You can only access your own data.". *)
Theorem C2_selfOrAdmin_self_or_admin (userIdParam : string) (w : World) (u : Claims) :
  user (req w) = Some u ->
  sent (res w) = None ->
  (calls_next (AuthMiddleware.selfOrAdmin userIdParam) w
   <-> (params (req w) !! userIdParam = Some (user_id u)
        \/ calls_next AuthMiddleware.adminOnly w))
  /\ (~ calls_next (AuthMiddleware.selfOrAdmin userIdParam) w ->
      AuthMiddleware.selfOrAdmin userIdParam w
      = (Normal tt,
         replied 403 (rejection "Access denied. You can only access your own data.") w)).
Proof.
  intros Hu Hsent. unfold calls_next, AuthMiddleware.adminOnly.
  rewrite (selfOrAdmin_run _ _ _ Hu Hsent), (authorize_run _ _ _ Hu Hsent).
  unfold AuthMiddleware.includes. simpl. rewrite orb_false_r.
  rewrite <- strict_equal_true.
  destruct (String.eqb (user_role u) "admin") eqn:Hrole;
    destruct (AuthMiddleware.strict_equal _ _) eqn:Hself; simpl.
  - split; [split; auto | intros Hn; exfalso; apply Hn; reflexivity].
  - split; [split; auto | intros Hn; exfalso; apply Hn; reflexivity].
  - split; [split; auto | intros Hn; exfalso; apply Hn; reflexivity].
  - split; [|reflexivity].
    split; [intros Hn; lia | intros [Hc | Hc]; [discriminate | lia]].
Qed.

Lemma C2_witness :
  let u := mkClaims "u1" "c@x.io" "coordinator" "verified" 0 86400 in
  let w := Sample.world (Sample.request_of u "u1") 0 Sample.empty_db in
  (calls_next (AuthMiddleware.selfOrAdmin "userId") w
   <-> (params (req w) !! "userId" = Some (user_id u)
        \/ calls_next AuthMiddleware.adminOnly w))
  /\ (~ calls_next (AuthMiddleware.selfOrAdmin "userId") w ->
      AuthMiddleware.selfOrAdmin "userId" w
      = (Normal tt,
         replied 403 (rejection "Access denied. You can only access your own data.") w)).
Proof.
  intros u w.
  apply (C2_selfOrAdmin_self_or_admin "userId" w u); reflexivity.
Defined.

(** A moderator asks for another user's record: [moderatorAndAbove] calls
    [next], the ids differ, and [selfOrAdmin] does not call [next]. *)
Lemma C2_counterexample :
  let u := mkClaims "u1" "m@x.io" "moderator" "verified" 0 86400 in
  let w := Sample.world (Sample.request_of u "u2") 0 Sample.empty_db in
  ~ (calls_next (AuthMiddleware.selfOrAdmin "userId") w
     <-> (params (req w) !! "userId" = Some (user_id u)
          \/ calls_next AuthMiddleware.moderatorAndAbove w)).
Proof.
  intros u w [_ H].
  assert (Hmod : calls_next AuthMiddleware.moderatorAndAbove w) by reflexivity.
  specialize (H (or_intror Hmod)).
  unfold calls_next in H.
  rewrite (selfOrAdmin_run "userId" w u eq_refl eq_refl) in H.
  vm_compute in H. discriminate H.
Qed.

(** *** The request throttle *)

Lemma pruned_lookup (windowMs now : Z) (key : string) (m : gmap string (list Z)) :
  default [] (pruned windowMs now key m !! key) = in_window windowMs now key m.
Proof.
  unfold pruned. case_bool_decide as Hk.
  - rewrite lookup_insert_eq. reflexivity.
  - unfold in_window. destruct (m !! key) eqn:E.
    + exfalso. apply Hk. eauto.
    + reflexivity.
Qed.

Lemma pruned_lookup_ne (windowMs now : Z) (key k : string) (m : gmap string (list Z)) :
  k <> key -> pruned windowMs now key m !! k = m !! k.
Proof.
  intros Hne. unfold pruned. case_bool_decide; [|reflexivity].
  rewrite lookup_insert_ne; [reflexivity | congruence].
Qed.

(** What the block under [try] does, case by case. *)
Lemma rateLimit_try_run (maxRequests windowMs : Z) (w : World) :
  let key := rate_key (req w) in
  let kept := in_window windowMs (clock w) key (requests w) in
  let m := pruned windowMs (clock w) key (requests w) in
  AuthMiddleware.rateLimit_try maxRequests windowMs w =
    if (Z.of_nat (length kept) >=? maxRequests)%Z then
      match sent (res w) with
      | Some _ =>
          (Throw ERR_HTTP_HEADERS_SENT,
           with_res (fun r => mkResponse 429 (sent r)) (with_requests (fun _ => m) w))
      | None => (Normal tt, replied 429 (too_many windowMs) (with_requests (fun _ => m) w))
      end
    else
      (Normal tt,
       with_next (with_requests (fun _ => <[key := kept ++ [clock w]]> m) w)).
Proof.
  intros key kept m.
  unfold AuthMiddleware.rateLimit_try, bind, get_req, Date_now, requests_has,
    requests_get, requests_set, ret.
  fold (rate_key (req w)). fold key.
  unfold kept, m, pruned, in_window.
  case_bool_decide as Hk; simpl in *.
  - rewrite lookup_insert_eq in *. simpl in *.
    destruct (Z.of_nat _ >=? maxRequests)%Z; [|destruct w; reflexivity].
    unfold res_status, res_json, bind. simpl.
    destruct (sent (res w)); destruct w; reflexivity.
  - destruct (requests w !! key) eqn:E; [exfalso; apply Hk; eauto|]. simpl.
    destruct (Z.of_nat _ >=? maxRequests)%Z; [|destruct w; reflexivity].
    unfold res_status, res_json, bind. simpl.
    destruct (sent (res w)); destruct w; reflexivity.
Qed.

Lemma rateLimit_run (maxRequests windowMs : Z) (w : World) :
  sent (res w) = None ->
  let key := rate_key (req w) in
  let kept := in_window windowMs (clock w) key (requests w) in
  let m := pruned windowMs (clock w) key (requests w) in
  AuthMiddleware.rateLimit maxRequests windowMs w =
    if (Z.of_nat (length kept) >=? maxRequests)%Z then
      (Normal tt, replied 429 (too_many windowMs) (with_requests (fun _ => m) w))
    else
      (Normal tt,
       with_next (with_requests (fun _ => <[key := kept ++ [clock w]]> m) w)).
Proof.
  intros Hsent key kept m.
  unfold AuthMiddleware.rateLimit, try_catch.
  rewrite rateLimit_try_run. fold key. fold kept. fold m. rewrite Hsent.
  destruct (Z.of_nat _ >=? maxRequests)%Z; reflexivity.
Qed.

(** C5 (amended): the sliding window of [rateLimit], for a request that has
    not been answered.  The timestamps kept for the key are those later than
    [now - windowMs], so one that is exactly [windowMs] old is dropped too;
    when at least [maxRequests] are kept the request is answered 429, [next]
    is not called and [now] is not stored; otherwise [now] is appended to the
    kept ones and [next] is called.  The entries of the other keys stay as
    they are.  With a ceiling of 3 and a window of 60 seconds, requests at
    0 s, 1 s and 2 s pass, one at 3 s is refused and one at 61 s passes. *)
Theorem C5_rateLimit_sliding_window :
  (forall (maxRequests windowMs : Z) (w : World),
      sent (res w) = None ->
      let key := rate_key (req w) in
      let kept := in_window windowMs (clock w) key (requests w) in
      let w' := snd (AuthMiddleware.rateLimit maxRequests windowMs w) in
      (forall k, k <> key -> requests w' !! k = requests w !! k)
      /\ ((Z.of_nat (length kept) >= maxRequests)%Z ->
          ~ calls_next (AuthMiddleware.rateLimit maxRequests windowMs) w
          /\ sent (res w') = Some (429%Z, too_many windowMs)
          /\ default [] (requests w' !! key) = kept)
      /\ ((Z.of_nat (length kept) < maxRequests)%Z ->
          calls_next (AuthMiddleware.rateLimit maxRequests windowMs) w
          /\ sent (res w') = None
          /\ requests w' !! key = Some (kept ++ [clock w])))
  /\ (let r := Sample.request None in
      let call := fun (seconds : Z) (w : World) =>
                    snd (AuthMiddleware.rateLimit 3 60000 (arrive r (seconds * 1000) w)) in
      let w0 := Sample.world r 0 Sample.empty_db in
      let w1 := call 0%Z w0 in
      let w2 := call 1%Z w1 in
      let w3 := call 2%Z w2 in
      let w4 := call 3%Z w3 in
      let w5 := call 61%Z w4 in
      (next_calls w1 = 1 /\ next_calls w2 = 1 /\ next_calls w3 = 1)
      /\ (next_calls w4 = 0 /\ sent (res w4) = Some (429%Z, too_many 60000)
          /\ requests w4 !! "10.0.0.1" = Some [0; 1000; 2000]%Z)
      /\ (next_calls w5 = 1 /\ sent (res w5) = None
          /\ requests w5 !! "10.0.0.1" = Some [2000; 61000]%Z)).
Proof.
  split.
  - intros maxRequests windowMs w Hsent key kept w'.
    unfold w', calls_next. rewrite (rateLimit_run _ _ _ Hsent).
    fold key. fold kept.
    destruct (Z.of_nat (length kept) >=? maxRequests)%Z eqn:Hc; simpl.
    + apply Z.geb_le in Hc. split; [|split].
      * intros k Hk. apply pruned_lookup_ne. exact Hk.
      * intros _. split; [lia|]. split; [reflexivity|]. apply pruned_lookup.
      * intros Hlt. lia.
    + rewrite Z.geb_leb in Hc. apply Z.leb_gt in Hc. split; [|split].
      * intros k Hk. rewrite lookup_insert_ne by congruence.
        apply pruned_lookup_ne. exact Hk.
      * intros Hge. lia.
      * intros _. split; [reflexivity|]. split; [exact Hsent|]. apply lookup_insert_eq.
  - vm_compute. repeat split; reflexivity.
Qed.

Lemma C5_witness :
  let w := Sample.world (Sample.request None) 5000 Sample.empty_db in
  let key := rate_key (req w) in
  let kept := in_window 60000 (clock w) key (requests w) in
  let w' := snd (AuthMiddleware.rateLimit 3 60000 w) in
  (forall k, k <> key -> requests w' !! k = requests w !! k)
  /\ ((Z.of_nat (length kept) >= 3)%Z ->
      ~ calls_next (AuthMiddleware.rateLimit 3 60000) w
      /\ sent (res w') = Some (429%Z, too_many 60000)
      /\ default [] (requests w' !! key) = kept)
  /\ ((Z.of_nat (length kept) < 3)%Z ->
      calls_next (AuthMiddleware.rateLimit 3 60000) w
      /\ sent (res w') = None
      /\ requests w' !! key = Some (kept ++ [clock w])).
Proof.
  intros w key kept w'.
  exact (proj1 C5_rateLimit_sliding_window 3%Z 60000%Z w eq_refl).
Defined.

(** With a ceiling of 1 and a window of 60 seconds, a request at 0 s passes
    and stores 0.  At 60 s that entry is not older than [now - window]
    ([0 < 60000 - 60000] fails), yet it is dropped and the request passes. *)
Lemma C5_counterexample :
  let r := Sample.request None in
  let w1 := snd (AuthMiddleware.rateLimit 1 60000
                   (arrive r 0 (Sample.world r 0 Sample.empty_db))) in
  let w2 := snd (AuthMiddleware.rateLimit 1 60000 (arrive r 60000 w1)) in
  requests w1 !! "10.0.0.1" = Some [0%Z]
  /\ ~ (0 < 60000 - 60000)%Z
  /\ next_calls w2 = 1
  /\ requests w2 !! "10.0.0.1" = Some [60000%Z].
Proof.
  vm_compute. repeat split; try reflexivity. discriminate.
Qed.

(** C4 (amended): every denial of [rateLimit] carries the hint
    [retryAfter = Math.ceil(windowMs / 1000)], the whole window in seconds,
    whatever the time of the request and the timestamps stored. *)
Theorem C4_retryAfter_is_the_window (maxRequests windowMs : Z) (w : World) :
  sent (res w) = None ->
  ~ calls_next (AuthMiddleware.rateLimit maxRequests windowMs) w ->
  sent (res (snd (AuthMiddleware.rateLimit maxRequests windowMs w)))
  = Some (429%Z,
          [("success", JBool false);
           ("message", JStr "Too many requests. Please try again later.");
           ("retryAfter", JNum (Math_ceil_div windowMs 1000))]).
Proof.
  intros Hsent Hdenied. unfold calls_next in Hdenied.
  rewrite (rateLimit_run _ _ _ Hsent) in *.
  destruct (Z.of_nat _ >=? maxRequests)%Z; [reflexivity|].
  exfalso. apply Hdenied. reflexivity.
Qed.

Lemma C4_witness :
  let r := Sample.request None in
  let w1 := snd (AuthMiddleware.rateLimit 1 60000
                   (arrive r 0 (Sample.world r 0 Sample.empty_db))) in
  sent (res (snd (AuthMiddleware.rateLimit 1 60000 (arrive r 30000 w1))))
  = Some (429%Z,
          [("success", JBool false);
           ("message", JStr "Too many requests. Please try again later.");
           ("retryAfter", JNum (Math_ceil_div 60000 1000))]).
Proof.
  intros r w1.
  apply (C4_retryAfter_is_the_window 1%Z 60000%Z (arrive r 30000 w1)).
  - reflexivity.
  - vm_compute. discriminate.
Defined.

(** With a ceiling of 1 and a window of 60 seconds, a request at 0 s passes;
    one at 30 s is refused with [retryAfter = 60], while the oldest counted
    timestamp leaves the window after [60000 - (30000 - 0)] ms, 30 seconds. *)
Lemma C4_counterexample :
  let r := Sample.request None in
  let w1 := snd (AuthMiddleware.rateLimit 1 60000
                   (arrive r 0 (Sample.world r 0 Sample.empty_db))) in
  let w2 := snd (AuthMiddleware.rateLimit 1 60000 (arrive r 30000 w1)) in
  in_window 60000 30000 "10.0.0.1" (requests w1) = [0%Z]
  /\ js_get "retryAfter" (default [] (snd <$> sent (res w2))) = Some (JNum 60)
  /\ (60000 - (30000 - 0) = 30000)%Z
  /\ (60 <> 30000)%Z /\ (60 <> 30)%Z.
Proof.
  vm_compute. repeat split; try reflexivity; discriminate.
Qed.



(** *** Token verification *)

Section TokenProperties.

Variable jwt_verify : string -> string -> Z -> JsError + Claims.
Variable JWT_SECRET : string.

(** C6 (amended): whatever error [jwt.verify] raises for a token, expiry and
    a wrong signing secret included, [verifyToken] returns [null]: the token
    is never accepted, and the reason goes to the console only, as the message
    of the error. *)
Theorem C6_verifyToken_rejects_with_null (token : string) (w : World) (e : JsError) :
  jwt_verify token JWT_SECRET (clock w) = inl e ->
  AuthMiddleware.verifyToken jwt_verify JWT_SECRET token w
  = (Normal None, with_console ("Token verification failed: " +:+ error_message e) w).
Proof.
  intros Hv.
  unfold AuthMiddleware.verifyToken, AuthMiddleware.jwt_verify_call, try_catch, bind.
  rewrite Hv. reflexivity.
Qed.

End TokenProperties.

Lemma C6_witness :
  let w := Sample.world (Sample.request None) 0 Sample.empty_db in
  AuthMiddleware.verifyToken Sample.jwt_verify Sample.JWT_SECRET "expired" w
  = (Normal None,
     with_console ("Token verification failed: "
                   +:+ error_message (TokenExpiredError "jwt expired")) w).
Proof.
  intro w.
  apply (C6_verifyToken_rejects_with_null Sample.jwt_verify Sample.JWT_SECRET
           "expired" w (TokenExpiredError "jwt expired")).
  reflexivity.
Defined.

(** The library tells an expired token from one with a wrong signature, and
    [verifyToken] returns the same value, [null], for both. *)
Lemma C6_counterexample :
  let w := Sample.world (Sample.request None) 0 Sample.empty_db in
  Sample.jwt_verify "expired" Sample.JWT_SECRET 0 = inl (TokenExpiredError "jwt expired")
  /\ Sample.jwt_verify "forged" Sample.JWT_SECRET 0
     = inl (JsonWebTokenError "invalid signature")
  /\ fst (AuthMiddleware.verifyToken Sample.jwt_verify Sample.JWT_SECRET "expired" w)
     = Normal None
  /\ fst (AuthMiddleware.verifyToken Sample.jwt_verify Sample.JWT_SECRET "forged" w)
     = Normal None.
Proof.
  repeat split; reflexivity.
Qed.

(** *** Login, the session trail and the profile *)

Lemma find_filter_head {A : Type} (p : A -> bool) (l : list A) :
  List.find p l = head (List.filter p l).
Proof.
  induction l as [|a l IH]; simpl; [reflexivity|].
  destruct (p a); [reflexivity | exact IH].
Qed.

Section ServiceProperties.

Context `{Libraries}.



Lemma getUserByEmail_run (w : World) (email : string) :
  fault (db w) = None ->
  LegacyUserService.getUserByEmail email w =
    match List.find (Mongoose.has_email email) (users (db w)) with
    | None => (Normal (mkResult false (Some "User not found") None), w)
    | Some account => (Normal (mkResult true None (Some account)), w)
    end.
Proof.
  intros Hf.
  unfold LegacyUserService.getUserByEmail, DB.select, Mongoose.User_find_email,
    Mongoose.connected, Mongoose.get_users, try_catch, bind, ret.
  rewrite Hf. simpl. rewrite find_filter_head.
  destruct (List.filter _ _); reflexivity.
Qed.




End ServiceProperties.



Lemma find_replace_first {A : Type} (p : A -> bool) (d d' : A) (l : list A) :
  p d' = true ->
  List.find p l = Some d ->
  List.find p (Mongoose.replace_first p d' l) = Some d'.
Proof.
  intros Hd'. induction l as [|a l IH]; simpl; [discriminate|].
  destruct (p a) eqn:Ha; simpl.
  - intros _. rewrite Hd'. reflexivity.
  - rewrite Ha. exact IH.
Qed.

Section TrailProperties.

Context `{Libraries}.

(** C7: applied to a well-formed id that no record of the trail has,
    [updateLogoutTime] answers [{ success: true, message: "Logout time
    updated" }] and changes nothing, where the claim expects NotFound. *)
Theorem C7_updateLogoutTime_without_record (w : World) (logId : string) :
  fault (db w) = None ->
  isValidObjectId logId = true ->
  List.find (Mongoose.log_has_id logId) (logs (db w)) = None ->
  AuthService.updateLogoutTime logId w
  = (Normal (mkResult true (Some "Logout time updated") None), w).
Proof.
  intros Hf Hid Hnone.
  unfold AuthService.updateLogoutTime, Mongoose.Log_findByIdAndUpdate_loggedOutAt,
    Mongoose.castObjectId, Mongoose.connected, Mongoose.get_logs, Date_now,
    try_catch, bind, ret.
  rewrite Hid. simpl. rewrite Hf. simpl. rewrite Hnone. reflexivity.
Qed.

(** C9: a signed-in user whose request body is [{ "$set": { "role": "admin" } }]
    gets the role [admin] written to the stored account by [updateProfile],
    which answers with success: the three deletions only remove top-level
    keys. *)
Theorem C9_updateProfile_changes_the_role (w : World) (u : Claims) (account : User.Doc) :
  user (req w) = Some u ->
  body (req w) = [("$set", JObj [("role", JStr "admin")])] ->
  isValidObjectId (user_id u) = true ->
  fault (db w) = None ->
  List.find (Mongoose.has_id (user_id u)) (users (db w)) = Some account ->
  let w' := snd (AuthController.updateProfile w) in
  let updated := UserSchema.assign "role" "admin" account in
  List.find (Mongoose.has_id (user_id u)) (users (db w')) = Some updated
  /\ User.role updated = "admin"
  /\ replies w'
     = replies w ++ [successResponse_call
                       (Some (UserSchema.toJSON (UserSchema.without_password updated)))
                       (Some "User updated successfully") None].
Proof.
  intros Hu Hbody Hid Hf Hfound w' updated.
  assert (Hkeep : Mongoose.has_id (user_id u) updated = true).
  { apply find_some in Hfound. destruct Hfound as [_ Hp]. exact Hp. }
  unfold w', AuthController.updateProfile, AuthController.req_user_id,
    UserService.updateUser, Mongoose.User_findByIdAndUpdate, Mongoose.castObjectId,
    Mongoose.connected, Mongoose.get_users, Mongoose.set_users, get_req,
    try_catch, bind, ret.
  rewrite Hbody, Hu. simpl. rewrite Hid. simpl. rewrite Hf. simpl. rewrite Hfound. simpl.
  fold updated.
  split; [|split; reflexivity].
  apply (find_replace_first _ account); assumption.
Qed.

End TrailProperties.

Lemma C7_witness :
  let w := Sample.profile_world [] "verified" in
  AuthService.updateLogoutTime (H := Sample.libraries) Sample.id1 w
  = (Normal (mkResult true (Some "Logout time updated") None), w).
Proof.
  intro w.
  apply (C7_updateLogoutTime_without_record (H := Sample.libraries) w Sample.id1);
    reflexivity.
Defined.

Lemma C9_witness :
  let w := Sample.profile_world [("$set", JObj [("role", JStr "admin")])] "verified" in
  let w' := snd (AuthController.updateProfile (H := Sample.libraries) w) in
  let updated := UserSchema.assign "role" "admin" (Sample.alice "verified") in
  List.find (Mongoose.has_id Sample.id1) (users (db w')) = Some updated
  /\ User.role updated = "admin"
  /\ replies w'
     = replies w ++ [successResponse_call
                       (Some (UserSchema.toJSON (UserSchema.without_password updated)))
                       (Some "User updated successfully") None].
Proof.
  intros w w' updated.
  apply (C9_updateProfile_changes_the_role (H := Sample.libraries) w Sample.alice_claims
           (Sample.alice "verified")); reflexivity.
Defined.

(** ** Further properties of the middleware *)

Section GuardProperties.

Variable jwt_verify : string -> string -> Z -> JsError + Claims.
Variable JWT_SECRET : string.

Lemma falsy_false (token : option string) :
  AuthMiddleware.falsy token = false -> exists t, token = Some t /\ t <> "".
Proof.
  destruct token as [t|]; simpl; [|discriminate].
  intros Hne. exists t. split; [reflexivity|]. apply String.eqb_neq. exact Hne.
Qed.

(** A token that [jwt.verify] refuses, for whatever reason, is answered with
    401 "Invalid or expired token."; [next] is not called and the reason is
    written to the console only. *)
Theorem authenticate_rejects_refused_token (w : World) (token : string) (e : JsError) :
  AuthMiddleware.extractToken (req w) = Some token ->
  token <> "" ->
  jwt_verify token JWT_SECRET (clock w) = inl e ->
  sent (res w) = None ->
  AuthMiddleware.authenticate jwt_verify JWT_SECRET w
  = (Normal tt,
     replied 401 (rejection "Invalid or expired token.")
             (with_console ("Token verification failed: " +:+ error_message e) w)).
Proof.
  intros Htok Hne Hver Hsent.
  pose proof (falsy_extractToken _ _ Htok Hne) as Hfalsy.
  unfold AuthMiddleware.authenticate, AuthMiddleware.verifyToken,
    AuthMiddleware.jwt_verify_call, try_catch, bind, get_req, ret.
  rewrite Hfalsy, Htok. simpl. rewrite Hver. simpl.
  unfold res_json, res_status. simpl. rewrite Hsent.
  destruct w; reflexivity.
Qed.

(** A token that verifies to a payload whose status is not "deleted" makes
    [authenticate] store the payload in [req.user] and call [next]; nothing
    is sent. *)
Theorem authenticate_accepts_verified_token (w : World) (token : string) (decoded : Claims) :
  AuthMiddleware.extractToken (req w) = Some token ->
  token <> "" ->
  jwt_verify token JWT_SECRET (clock w) = inr decoded ->
  user_status decoded <> "deleted" ->
  AuthMiddleware.authenticate jwt_verify JWT_SECRET w
  = (Normal tt, with_next (with_req (set_user decoded) w)).
Proof.
  intros Htok Hne Hver Hst.
  pose proof (falsy_extractToken _ _ Htok Hne) as Hfalsy.
  apply String.eqb_neq in Hst.
  unfold AuthMiddleware.authenticate, AuthMiddleware.verifyToken,
    AuthMiddleware.jwt_verify_call, try_catch, bind, get_req, ret.
  rewrite Hfalsy, Htok. simpl. rewrite Hver, Hst. reflexivity.
Qed.

(** [authenticate] has no way round the check: whenever it calls [next], the
    request carried a token that [jwt.verify] accepted, the payload is not of
    a deleted account, and [req.user] is that payload. *)
Theorem authenticate_next_only_when_verified (w : World) :
  calls_next (AuthMiddleware.authenticate jwt_verify JWT_SECRET) w ->
  exists token decoded,
    AuthMiddleware.extractToken (req w) = Some token
    /\ jwt_verify token JWT_SECRET (clock w) = inr decoded
    /\ user_status decoded <> "deleted"
    /\ user (req (snd (AuthMiddleware.authenticate jwt_verify JWT_SECRET w))) = Some decoded.
Proof.
  unfold calls_next, AuthMiddleware.authenticate, AuthMiddleware.verifyToken,
    AuthMiddleware.jwt_verify_call, try_catch, bind, get_req, ret.
  destruct (AuthMiddleware.falsy (AuthMiddleware.extractToken (req w))) eqn:Hfalsy.
  - unfold res_status, res_json, console_error, bind. simpl.
    destruct (sent (res w)) eqn:Hs; simpl; rewrite ?Hs; simpl;
      intros Hn; exfalso; lia.
  - destruct (falsy_false _ Hfalsy) as (token & Htok & Hne). rewrite Htok. simpl.
    destruct (jwt_verify token JWT_SECRET (clock w)) as [e|decoded] eqn:Hver; simpl.
    + unfold res_status, res_json, console_error, bind. simpl.
      destruct (sent (res w)) eqn:Hs; simpl; rewrite ?Hs; simpl;
      intros Hn; exfalso; lia.
    + destruct (String.eqb (user_status decoded) "deleted") eqn:Hst; simpl.
      * unfold res_status, res_json, console_error, bind. simpl.
        destruct (sent (res w)) eqn:Hs; simpl; rewrite ?Hs; simpl;
      intros Hn; exfalso; lia.
      * intros _. exists token, decoded. apply String.eqb_neq in Hst.
        repeat split; assumption || reflexivity.
Qed.

(** [optionalAuth] always hands the request on: it returns normally, calls
    [next] once, sends nothing and leaves the throttle map and the stores as
    they are, whatever the header and whatever [jwt.verify] does. *)
Theorem optionalAuth_always_continues (w : World) :
  exists w',
    AuthMiddleware.optionalAuth jwt_verify JWT_SECRET w = (Normal tt, w')
    /\ next_calls w' = S (next_calls w)
    /\ res w' = res w
    /\ requests w' = requests w
    /\ db w' = db w.
Proof.
  unfold AuthMiddleware.optionalAuth, AuthMiddleware.verifyToken,
    AuthMiddleware.jwt_verify_call, try_catch, bind, get_req, ret.
  destruct (AuthMiddleware.falsy (AuthMiddleware.extractToken (req w))); simpl.
  - eexists. repeat split.
  - destruct (jwt_verify _ JWT_SECRET (clock w)) as [e|decoded]; simpl.
    + eexists. repeat split.
    + destruct (String.eqb (user_status decoded) "deleted"); simpl;
        eexists; repeat split.
Qed.

(** After [optionalAuth], [req.user] is what it was, or it is the payload
    [jwt.verify] returned for the token of the request, and that payload is
    not of a deleted account. *)
Theorem optionalAuth_user_is_verified (w : World) (u : Claims) :
  user (req (snd (AuthMiddleware.optionalAuth jwt_verify JWT_SECRET w))) = Some u ->
  user (req w) = Some u
  \/ exists token,
       AuthMiddleware.extractToken (req w) = Some token
       /\ jwt_verify token JWT_SECRET (clock w) = inr u
       /\ user_status u <> "deleted".
Proof.
  unfold AuthMiddleware.optionalAuth, AuthMiddleware.verifyToken,
    AuthMiddleware.jwt_verify_call, try_catch, bind, get_req, ret.
  destruct (AuthMiddleware.falsy (AuthMiddleware.extractToken (req w))) eqn:Hfalsy; simpl.
  - intros Hu. left. exact Hu.
  - destruct (falsy_false _ Hfalsy) as (token & Htok & Hne). rewrite Htok. simpl.
    destruct (jwt_verify token JWT_SECRET (clock w)) as [e|decoded] eqn:Hver; simpl.
    + intros Hu. left. exact Hu.
    + destruct (String.eqb (user_status decoded) "deleted") eqn:Hst; simpl.
      * intros Hu. left. exact Hu.
      * intros [= <-]. right. exists token. apply String.eqb_neq in Hst.
        repeat split; assumption.
Qed.

End GuardProperties.

(** *** Roles *)

(** Steps that close the cases in which a middleware answers instead of
    calling [next]. *)
Ltac answered w :=
  unfold res_status, res_json, console_error, errorResponse, bind; simpl;
  let Hs := fresh "Hs" in
  destruct (sent (res w)) eqn:Hs; simpl; rewrite ?Hs; simpl;
  try (intros; exfalso; lia); try lia.

Lemma includes_In (allowedRoles : list string) (role : string) :
  AuthMiddleware.includes allowedRoles role = true <-> In role allowedRoles.
Proof.
  unfold AuthMiddleware.includes. rewrite existsb_exists. split.
  - intros (x & Hx & Heq). apply String.eqb_eq in Heq. subst x. exact Hx.
  - intros Hx. exists role. split; [exact Hx | apply String.eqb_refl].
Qed.

Lemma authorize_next_bool (allowedRoles : list string) (w : World) :
  calls_next (AuthMiddleware.authorize allowedRoles) w
  <-> exists u, user (req w) = Some u
                /\ ((length allowedRoles =? 0)%nat
                    || AuthMiddleware.includes allowedRoles (user_role u)) = true.
Proof.
  unfold calls_next, AuthMiddleware.authorize, try_catch, bind, get_req.
  destruct (user (req w)) as [u|] eqn:Hu.
  - destruct (length allowedRoles =? 0)%nat.
    + split; [intros _; exists u; auto | reflexivity].
    + destruct (AuthMiddleware.includes allowedRoles (user_role u)) eqn:Hmem.
      * split; [|reflexivity]. intros _. exists u. rewrite Hmem. auto.
      * split.
        -- answered w.
        -- intros (u' & [= <-] & Hb). rewrite Hmem in Hb. discriminate Hb.
  - split.
    + answered w.
    + intros (u & Hu' & _). discriminate.
Qed.

(** [authorize(allowedRoles)] calls [next] exactly for an authenticated
    request whose role is listed, or for any authenticated request when the
    list is empty. *)
Theorem authorize_passes_iff (allowedRoles : list string) (w : World) :
  calls_next (AuthMiddleware.authorize allowedRoles) w
  <-> exists u, user (req w) = Some u
                /\ (allowedRoles = [] \/ In (user_role u) allowedRoles).
Proof.
  rewrite authorize_next_bool. split.
  - intros (u & Hu & Hb). exists u. split; [exact Hu|].
    apply orb_true_iff in Hb. destruct Hb as [Hlen | Hmem].
    + left. apply Nat.eqb_eq in Hlen. apply nil_length_inv. exact Hlen.
    + right. apply includes_In. exact Hmem.
  - intros (u & Hu & [Hnil | Hmem]); exists u; split; try exact Hu.
    + subst allowedRoles. reflexivity.
    + apply orb_true_iff. right. apply includes_In. exact Hmem.
Qed.

(** The three role guards nest: whoever passes [adminOnly] passes
    [moderatorAndAbove], and whoever passes that passes
    [coordinatorAndAbove]. *)
Theorem role_guards_nest (w : World) :
  (calls_next AuthMiddleware.adminOnly w -> calls_next AuthMiddleware.moderatorAndAbove w)
  /\ (calls_next AuthMiddleware.moderatorAndAbove w
      -> calls_next AuthMiddleware.coordinatorAndAbove w).
Proof.
  unfold AuthMiddleware.adminOnly, AuthMiddleware.moderatorAndAbove,
    AuthMiddleware.coordinatorAndAbove.
  rewrite !authorize_next_bool. unfold AuthMiddleware.includes. simpl. split.
  - intros (u & Hu & Hb). exists u. split; [exact Hu|].
    destruct (String.eqb (user_role u) "admin"); [reflexivity | discriminate Hb].
  - intros (u & Hu & Hb). exists u. split; [exact Hu|].
    destruct (String.eqb (user_role u) "admin"); [reflexivity|].
    destruct (String.eqb (user_role u) "moderator"); [reflexivity | discriminate Hb].
Qed.

(** A request without [req.user] is answered 401 "Authentication required."
    by every guard that comes after authentication, whatever roles or
    parameter it was built with. *)
Theorem guards_require_authentication (allowedRoles : list string) (userIdParam : string)
    (w : World) :
  user (req w) = None ->
  sent (res w) = None ->
  AuthMiddleware.authorize allowedRoles w
  = (Normal tt, replied 401 (rejection "Authentication required.") w)
  /\ AuthMiddleware.selfOrAdmin userIdParam w
     = (Normal tt, replied 401 (rejection "Authentication required.") w)
  /\ AuthMiddleware.verifiedOnly w
     = (Normal tt, replied 401 (rejection "Authentication required.") w).
Proof.
  intros Hu Hsent.
  unfold AuthMiddleware.authorize, AuthMiddleware.selfOrAdmin, AuthMiddleware.verifiedOnly,
    try_catch, bind, get_req, res_status, res_json.
  rewrite Hu. simpl. rewrite Hsent. destruct w; repeat split; reflexivity.
Qed.

(** [verifiedOnly] lets an authenticated request through exactly when the
    status of its payload is "verified"; any other status is answered 403 with
    the status in the body. *)
Theorem verifiedOnly_passes_iff (w : World) (u : Claims) :
  user (req w) = Some u ->
  sent (res w) = None ->
  (calls_next AuthMiddleware.verifiedOnly w <-> user_status u = "verified")
  /\ (user_status u <> "verified" ->
      AuthMiddleware.verifiedOnly w
      = (Normal tt,
         replied 403 [("success", JBool false);
                      ("message", JStr "Account verification required.");
                      ("userStatus", JStr (user_status u))] w)).
Proof.
  intros Hu Hsent.
  unfold calls_next, AuthMiddleware.verifiedOnly, try_catch, bind, get_req,
    res_status, res_json.
  rewrite Hu. simpl.
  destruct (String.eqb (user_status u) "verified") eqn:Hst; simpl.
  - apply String.eqb_eq in Hst. split; [tauto|]. intros Hne. contradiction.
  - apply String.eqb_neq in Hst. rewrite Hsent. simpl. split.
    + split; [lia | contradiction].
    + intros _. destruct w; reflexivity.
Qed.

(** The earlier and the later middleware agree on who passes the role guard
    and the self-or-admin guard. *)
Theorem role_guards_agree (roles : list string) (userIdParam : string) (w : World) :
  sent (res w) = None ->
  (calls_next (AuthMiddleware.authorize roles) w
   <-> calls_next (auth_middleware.authorize roles) w)
  /\ (calls_next (AuthMiddleware.selfOrAdmin userIdParam) w
      <-> calls_next (auth_middleware.selfOrAdmin userIdParam) w).
Proof.
  intros Hsent.
  unfold calls_next, AuthMiddleware.authorize, AuthMiddleware.selfOrAdmin,
    auth_middleware.authorize, auth_middleware.selfOrAdmin, USER_ROLES.ADMIN,
    try_catch, bind, get_req, res_status, res_json, errorResponse.
  destruct (user (req w)) as [u|]; simpl.
  - split.
    + destruct (length roles =? 0)%nat; [tauto|].
      destruct (AuthMiddleware.includes roles (user_role u)); simpl; [tauto|].
      rewrite Hsent. simpl. tauto.
    + destruct (String.eqb (user_role u) "admin"); simpl; [tauto|].
      destruct (AuthMiddleware.strict_equal _ _); simpl; [tauto|].
      rewrite Hsent. simpl. tauto.
  - rewrite Hsent. simpl. tauto.
Qed.

(** *** The throttle map *)

Lemma in_window_length (windowMs now : Z) (key : string) (m : gmap string (list Z)) :
  length (in_window windowMs now key m) <= length (default [] (m !! key)).
Proof. unfold in_window. apply length_filter. Qed.

Lemma rateLimit_requests (maxRequests windowMs : Z) (w : World) :
  let key := rate_key (req w) in
  let kept := in_window windowMs (clock w) key (requests w) in
  let m := pruned windowMs (clock w) key (requests w) in
  requests (snd (AuthMiddleware.rateLimit maxRequests windowMs w)) =
    if (Z.of_nat (length kept) >=? maxRequests)%Z then m
    else <[key := kept ++ [clock w]]> m.
Proof.
  intros key kept m. unfold AuthMiddleware.rateLimit, try_catch.
  rewrite rateLimit_try_run. fold key. fold kept. fold m.
  destruct (Z.of_nat _ >=? maxRequests)%Z; [|reflexivity].
  destruct (sent (res w)); reflexivity.
Qed.

(** The map never grows past the ceiling: if a key holds at most
    [maxRequests] timestamps before a request, it holds at most [maxRequests]
    after it, whether the request was let through, refused or hit a fault. *)
Theorem rateLimit_keeps_at_most_the_ceiling (maxRequests windowMs : Z) (w : World)
    (k : string) :
  (0 <= maxRequests)%Z ->
  (Z.of_nat (length (default [] (requests w !! k))) <= maxRequests)%Z ->
  (Z.of_nat (length (default []
      (requests (snd (AuthMiddleware.rateLimit maxRequests windowMs w)) !! k)))
   <= maxRequests)%Z.
Proof.
  intros Hmax Hbefore. rewrite rateLimit_requests.
  set (key := rate_key (req w)).
  pose proof (in_window_length windowMs (clock w) key (requests w)) as Hlen.
  destruct (decide (k = key)) as [->|Hne].
  - destruct (Z.of_nat _ >=? maxRequests)%Z eqn:Hc.
    + rewrite pruned_lookup. lia.
    + rewrite lookup_insert_eq. simpl. rewrite length_app. simpl.
      rewrite Z.geb_leb in Hc. apply Z.leb_gt in Hc. lia.
  - destruct (Z.of_nat _ >=? maxRequests)%Z.
    + rewrite pruned_lookup_ne by exact Hne. exact Hbefore.
    + rewrite lookup_insert_ne by congruence.
      rewrite pruned_lookup_ne by exact Hne. exact Hbefore.
Qed.

(** With a clock that does not run backwards, every timestamp the map holds
    for the key of a request lies inside the window that ends at the time of
    the request. *)
Theorem rateLimit_keeps_only_the_window (maxRequests windowMs : Z) (w : World) :
  (0 < windowMs)%Z ->
  Forall (fun time => (time <= clock w)%Z) (default [] (requests w !! rate_key (req w))) ->
  Forall (fun time => (clock w - windowMs < time <= clock w)%Z)
         (default [] (requests (snd (AuthMiddleware.rateLimit maxRequests windowMs w))
                        !! rate_key (req w))).
Proof.
  intros Hwin Hpast. rewrite rateLimit_requests.
  set (key := rate_key (req w)) in *.
  assert (Hkept : Forall (fun time => (clock w - windowMs < time <= clock w)%Z)
                         (in_window windowMs (clock w) key (requests w))).
  { unfold in_window. rewrite Forall_forall in *. intros t Ht.
    apply list_elem_of_filter in Ht. destruct Ht as [Hgt Hin].
    specialize (Hpast t Hin). simpl in Hpast. lia. }
  destruct (Z.of_nat _ >=? maxRequests)%Z.
  - rewrite pruned_lookup. exact Hkept.
  - rewrite lookup_insert_eq. simpl. apply Forall_app. split; [exact Hkept|].
    constructor; [lia | constructor].
Qed.

Lemma Math_ceil_div_bounds (a : Z) :
  (1000 * (Math_ceil_div a 1000 - 1) < a <= 1000 * Math_ceil_div a 1000)%Z.
Proof.
  unfold Math_ceil_div.
  pose proof (Z.div_mod (- a) 1000 ltac:(lia)) as Hdm.
  pose proof (Z.mod_pos_bound (- a) 1000 ltac:(lia)) as Hb.
  lia.
Qed.

(** The hint of a denial is the least number of whole seconds that covers
    the window: it is never shorter than the window and less than a second
    longer. *)
Theorem retryAfter_covers_the_window (maxRequests windowMs : Z) (w : World) :
  sent (res w) = None ->
  ~ calls_next (AuthMiddleware.rateLimit maxRequests windowMs) w ->
  exists seconds : Z,
    js_get "retryAfter"
      (default [] (snd <$> sent (res (snd (AuthMiddleware.rateLimit maxRequests windowMs w)))))
    = Some (JNum seconds)
    /\ (1000 * (seconds - 1) < windowMs <= 1000 * seconds)%Z.
Proof.
  intros Hsent Hdenied. unfold calls_next in Hdenied.
  rewrite (rateLimit_run _ _ _ Hsent) in *.
  destruct (Z.of_nat _ >=? maxRequests)%Z.
  - exists (Math_ceil_div windowMs 1000). split; [reflexivity|].
    apply Math_ceil_div_bounds.
  - exfalso. apply Hdenied. reflexivity.
Qed.

(** ** Further properties of the services *)

Lemma replace_first_split {A : Type} (p : A -> bool) (d d' : A) (l : list A) :
  List.find p l = Some d ->
  exists before after,
    l = before ++ d :: after
    /\ Mongoose.replace_first p d' l = before ++ d' :: after
    /\ Forall (fun x => p x = false) before.
Proof.
  induction l as [|a l IH]; simpl; [discriminate|].
  destruct (p a) eqn:Ha.
  - intros [= ->]. exists [], l. repeat split. constructor.
  - intros Hf. destruct (IH Hf) as (before & after & -> & Hr & Hb).
    exists (a :: before), after. rewrite Hr. repeat split. constructor; assumption.
Qed.

Lemma replace_first_none {A : Type} (p : A -> bool) (d' : A) (l : list A) :
  List.find p l = None -> Mongoose.replace_first p d' l = l.
Proof.
  induction l as [|a l IH]; simpl; [reflexivity|].
  destruct (p a); [discriminate|]. intros Hf. rewrite (IH Hf). reflexivity.
Qed.

Section SessionProperties.

Context `{Libraries}.

(** A login with the right password for an account that is not deleted
    succeeds with the account, its password hash removed, and a token signed
    over the id, email, role and status of the account; nothing is written. *)
Theorem login_succeeds (w : World) (email password hash : string) (account : User.Doc) :
  fault (db w) = None ->
  List.find (Mongoose.has_email email) (users (db w)) = Some account ->
  User.status account <> "deleted" ->
  User.password account = Some hash ->
  bcrypt_compare password hash = true ->
  AuthService.login email (JStr password) w
  = (Normal (mkResult true (Some "Login successful")
               (Some (UserSchema.without_password account,
                      jwt_sign (mkPayload (User._id account) (User.email account)
                                          (User.role account) (User.status account))
                               config_jwt_secret config_jwt_expiresIn (clock w)))),
     w).
Proof.
  intros Hf Hfound Hst Hpw Hcmp.
  unfold AuthService.login, Mongoose.User_findOne_email, Mongoose.connected,
    Mongoose.get_users, AuthService.comparePassword, Bcrypt.compare,
    AuthService.generateToken, Date_now, try_catch, bind, ret.
  rewrite Hf. simpl. rewrite Hfound.
  apply String.eqb_neq in Hst. rewrite Hst, Hpw. simpl. rewrite Hcmp. reflexivity.
Qed.

Lemma login_deleted_run (w : World) (email : string) (password : Json)
    (account : User.Doc) :
  fault (db w) = None ->
  List.find (Mongoose.has_email email) (users (db w)) = Some account ->
  User.status account = "deleted" ->
  AuthService.login email password w
  = (Normal (mkResult false (Some "Account has been deactivated") None), w).
Proof.
  intros Hf Hfound Hst.
  unfold AuthService.login, Mongoose.User_findOne_email, Mongoose.connected,
    Mongoose.get_users, try_catch, bind, ret.
  rewrite Hf. simpl. rewrite Hfound, Hst. reflexivity.
Qed.

(** A deleted account cannot log in, with the right password or a wrong one:
    both services answer "Account has been deactivated" before they look at
    the password. *)
Theorem login_refuses_deleted_account (w : World) (email : string) (password : Json)
    (account : User.Doc) :
  fault (db w) = None ->
  List.find (Mongoose.has_email email) (users (db w)) = Some account ->
  User.status account = "deleted" ->
  AuthService.login email password w
  = (Normal (mkResult false (Some "Account has been deactivated") None), w)
  /\ LegacyUserService.authenticateUser email password w
     = (Normal (mkResult false (Some "Account has been deactivated") None), w).
Proof.
  intros Hf Hfound Hst. split.
  - apply (login_deleted_run _ _ _ account); assumption.
  - unfold LegacyUserService.authenticateUser, try_catch, bind, ret.
    rewrite (getUserByEmail_run _ _ Hf), Hfound. simpl. rewrite Hst. reflexivity.
Qed.

(** [login] never throws and never writes to the store: every error ends as a
    result object with [success: false].  When the store cannot be reached the
    result carries the message of the driver and the error is logged. *)
Theorem login_is_total (w : World) (email : string) (password : Json) :
  (exists r w', AuthService.login email password w = (Normal r, w') /\ db w' = db w)
  /\ (forall m, fault (db w) = Some m ->
        AuthService.login email password w
        = (Normal (mkResult false (Some m) None),
           with_logger ("AuthService.login error: " +:+ error_toString (Error m)) w)).
Proof.
  split.
  - unfold AuthService.login, Mongoose.User_findOne_email, Mongoose.connected,
      Mongoose.get_users, AuthService.comparePassword, Bcrypt.compare,
      AuthService.generateToken, Date_now, logger_error, try_catch, bind, ret, throw.
    destruct (fault (db w)); simpl; [eexists _, _; split; reflexivity|].
    destruct (List.find _ _) as [account|]; simpl; [|eexists _, _; split; reflexivity].
    destruct (String.eqb (User.status account) "deleted"); simpl;
      [eexists _, _; split; reflexivity|].
    destruct (User.password account) as [hash|], password as [| | |secret| |]; simpl;
      try (eexists _, _; split; reflexivity).
    destruct (bcrypt_compare secret hash); simpl; eexists _, _; split; reflexivity.
  - intros m Hm.
    unfold AuthService.login, Mongoose.User_findOne_email, Mongoose.connected,
      logger_error, try_catch, bind, ret.
    rewrite Hm. reflexivity.
Qed.

End SessionProperties.

Lemma latest_spec (l : list Log.Doc) :
  match Mongoose.latest l with
  | None => l = []
  | Some d => In d l /\ Forall (fun x => (Log.loggedInAt x <= Log.loggedInAt d)%Z) l
  end.
Proof.
  induction l as [|a l IH]; simpl; [reflexivity|].
  destruct (Mongoose.latest l) as [d'|].
  - destruct IH as [Hin Hall].
    destruct (Log.loggedInAt a <? Log.loggedInAt d')%Z eqn:Hlt.
    + apply Z.ltb_lt in Hlt. split; [right; exact Hin|].
      constructor; [lia | exact Hall].
    + apply Z.ltb_ge in Hlt. split; [left; reflexivity|].
      constructor; [lia|]. eapply Forall_impl; [exact Hall|]. simpl. intros x Hx. lia.
  - subst l. split; [left; reflexivity|]. constructor; [lia | constructor].
Qed.

Section TrailExtras.

Context `{Libraries}.

(** Applied to the id of a record of the trail, [updateLogoutTime] sets
    [loggedOutAt] to the current time on the first record with that id and on
    no other, and answers with success. *)
Theorem updateLogoutTime_closes_one_record (w : World) (logId : string) (d : Log.Doc) :
  fault (db w) = None ->
  isValidObjectId logId = true ->
  List.find (Mongoose.log_has_id logId) (logs (db w)) = Some d ->
  exists w' before after,
    AuthService.updateLogoutTime logId w
    = (Normal (mkResult true (Some "Logout time updated") None), w')
    /\ logs (db w) = before ++ d :: after
    /\ logs (db w') = before ++ Mongoose.set_loggedOutAt (clock w) d :: after
    /\ Forall (fun x => Log._id x <> logId) before
    /\ users (db w') = users (db w).
Proof.
  intros Hf Hid Hfound.
  destruct (replace_first_split (Mongoose.log_has_id logId) d
              (Mongoose.set_loggedOutAt (clock w) d) _ Hfound)
    as (before & after & Hl & Hr & Hb).
  eexists _, before, after.
  unfold AuthService.updateLogoutTime, Mongoose.Log_findByIdAndUpdate_loggedOutAt,
    Mongoose.castObjectId, Mongoose.connected, Mongoose.get_logs, Mongoose.set_logs,
    Date_now, try_catch, bind, ret.
  rewrite Hid. simpl. rewrite Hf. simpl. rewrite Hfound. simpl.
  split; [reflexivity|]. split; [exact Hl|]. split; [exact Hr|]. split; [|reflexivity].
  eapply Forall_impl; [exact Hb|]. simpl. intros x Hx.
  unfold Mongoose.log_has_id in Hx. apply String.eqb_neq. exact Hx.
Qed.

(** The earlier [LogService.updateLogoutTime] answers "Log entry not found"
    when no record has the id, and also when the id is malformed or the store
    cannot be reached, since [DB.update] turns every error into a count of
    zero; the trail is left as it is. *)
Theorem legacy_updateLogoutTime_not_found (w : World) (logId : string) :
  (fault (db w) <> None
   \/ isValidObjectId logId = false
   \/ List.find (Mongoose.log_has_id logId) (logs (db w)) = None) ->
  exists w',
    LogService.updateLogoutTime logId w
    = (Normal (mkResult false (Some "Log entry not found") None), w')
    /\ logs (db w') = logs (db w).
Proof.
  intros Hcase.
  unfold LogService.updateLogoutTime, DB.update, Mongoose.Log_updateMany_id_loggedOutAt,
    Mongoose.castObjectId, Mongoose.connected, Mongoose.get_logs, Mongoose.set_logs,
    Date_now, console_error, try_catch, bind, ret, throw.
  destruct (isValidObjectId logId) eqn:Hid; simpl; [|eexists; split; reflexivity].
  destruct (fault (db w)) as [m|] eqn:Hf; simpl; [eexists; split; reflexivity|].
  destruct Hcase as [Hc | [Hc | Hc]]; [congruence | congruence |].
  assert (Hnone : List.filter (Mongoose.log_has_id logId) (logs (db w)) = []).
  { pose proof (find_filter_head (Mongoose.log_has_id logId) (logs (db w))) as Hh.
    rewrite Hc in Hh. destruct (List.filter _ _); [reflexivity | discriminate]. }
  rewrite Hnone. simpl. eexists. split; [reflexivity|]. simpl.
  clear Hnone. induction (logs (db w)) as [|a l IH]; simpl; [reflexivity|].
  simpl in Hc. destruct (Mongoose.log_has_id logId a); [discriminate|].
  rewrite (IH Hc). reflexivity.
Qed.

(** [getLastLogin] answers with a record of the user that no other record of
    the user is later than, and with "No login history found" exactly when
    the user has no record. *)
Theorem getLastLogin_is_the_latest (w : World) (userId : string) :
  fault (db w) = None ->
  isValidObjectId userId = true ->
  let mine := List.filter (fun d => String.eqb (Log.loginId d) userId) (logs (db w)) in
  (mine = [] ->
   AuthService.getLastLogin userId w
   = (Normal (mkResult false (Some "No login history found") None), w))
  /\ (mine <> [] ->
      exists log,
        AuthService.getLastLogin userId w = (Normal (mkResult true None (Some log)), w)
        /\ In log (logs (db w))
        /\ Log.loginId log = userId
        /\ Forall (fun x => (Log.loggedInAt x <= Log.loggedInAt log)%Z) mine).
Proof.
  intros Hf Hid mine.
  unfold AuthService.getLastLogin, Mongoose.Log_findOne_loginId_latest,
    Mongoose.castObjectId, Mongoose.connected, Mongoose.get_logs, try_catch, bind, ret.
  rewrite Hid. simpl. rewrite Hf. simpl. fold mine.
  pose proof (latest_spec mine) as Hl.
  destruct (Mongoose.latest mine) as [log|].
  - destruct Hl as [Hin Hall]. split.
    + intros Hnil. rewrite Hnil in Hin. contradiction.
    + intros _. exists log. split; [reflexivity|].
      unfold mine in Hin. apply filter_In in Hin. destruct Hin as [Hin Heq].
      apply String.eqb_eq in Heq. repeat split; assumption.
  - split; [reflexivity | contradiction].
Qed.

End TrailExtras.

(** *** The profile *)

Lemma js_get_delete_same (k : string) (o : JsObject) : js_get k (js_delete k o) = None.
Proof.
  unfold js_get, js_delete. induction o as [|[k' v] o IH]; simpl; [reflexivity|].
  destruct (String.eqb k' k) eqn:E; simpl; [exact IH|]. rewrite E. exact IH.
Qed.

Lemma js_get_delete_none (k k' : string) (o : JsObject) :
  js_get k o = None -> js_get k (js_delete k' o) = None.
Proof.
  unfold js_get, js_delete. induction o as [|[k0 v] o IH]; simpl; [reflexivity|].
  destruct (String.eqb k0 k) eqn:E; simpl; [discriminate|].
  intros Hn. destruct (negb (String.eqb k0 k')); simpl; [rewrite E|]; apply IH; exact Hn.
Qed.

Lemma js_delete_keys (k k0 : string) (o : JsObject) :
  In k0 (map fst (js_delete k o)) <-> In k0 (map fst o) /\ k0 <> k.
Proof.
  unfold js_delete. rewrite !in_map_iff. split.
  - intros ([k1 v] & <- & Hin). apply filter_In in Hin. destruct Hin as [Hin Hne].
    simpl in *. split; [exists (k1, v); auto|].
    apply negb_true_iff in Hne. apply String.eqb_neq. exact Hne.
  - intros (([k1 v] & <- & Hin) & Hne). exists (k1, v). split; [reflexivity|].
    apply filter_In. split; [exact Hin|]. simpl in *.
    apply negb_true_iff. apply String.eqb_neq. exact Hne.
Qed.

(** The update document [updateProfile] hands to the service. *)
Lemma sanitized_keys (k : string) (o : JsObject) :
  In k (map fst (js_delete "status" (js_delete "role" (js_delete "password" o))))
  <-> In k (map fst o) /\ k <> "password" /\ k <> "role" /\ k <> "status".
Proof. rewrite !js_delete_keys. tauto. Qed.

Lemma assign_id (path v : string) (d : User.Doc) :
  User._id (UserSchema.assign path v d) = User._id d.
Proof.
  unfold UserSchema.assign.
  repeat match goal with |- context [if ?b then _ else _] => destruct b end; reflexivity.
Qed.

Lemma assign_frame (path v : string) (d : User.Doc) :
  path <> "password" -> path <> "role" -> path <> "status" ->
  User.password (UserSchema.assign path v d) = User.password d
  /\ User.role (UserSchema.assign path v d) = User.role d
  /\ User.status (UserSchema.assign path v d) = User.status d.
Proof.
  intros Hp Hr Hs. unfold UserSchema.assign.
  apply String.eqb_neq in Hp, Hr, Hs. rewrite Hp, Hr, Hs.
  repeat match goal with |- context [if ?b then _ else _] => destruct b end;
    repeat split; reflexivity.
Qed.

Lemma apply_assignments_id (assignments : list (string * string)) (d : User.Doc) :
  User._id (Mongoose.apply_assignments assignments d) = User._id d.
Proof.
  unfold Mongoose.apply_assignments. revert d.
  induction assignments as [|a l IH]; intros d; simpl; [reflexivity|].
  rewrite IH. apply assign_id.
Qed.

Lemma apply_assignments_frame (assignments : list (string * string)) (d : User.Doc) :
  Forall (fun a => fst a <> "password" /\ fst a <> "role" /\ fst a <> "status") assignments ->
  User.password (Mongoose.apply_assignments assignments d) = User.password d
  /\ User.role (Mongoose.apply_assignments assignments d) = User.role d
  /\ User.status (Mongoose.apply_assignments assignments d) = User.status d.
Proof.
  unfold Mongoose.apply_assignments. revert d.
  induction assignments as [|a l IH]; intros d Hall; simpl; [repeat split|].
  inversion Hall as [|? ? (Hp & Hr & Hs) Hrest]; subst.
  destruct (IH (UserSchema.assign (fst a) (snd a) d) Hrest) as (E1 & E2 & E3).
  destruct (assign_frame (fst a) (snd a) d Hp Hr Hs) as (F1 & F2 & F3).
  rewrite E1, E2, E3, F1, F2, F3. repeat split.
Qed.

Section ProfileProperties.

Context `{Libraries}.

Lemma cast_path_keys (path : string) (v : Json) (assignments : list (string * string)) :
  Mongoose.cast_path path v = inr assignments ->
  Forall (fun a => fst a = path) assignments.
Proof.
  unfold Mongoose.cast_path. destruct (existsb _ _).
  - destruct v; try discriminate. intros [= <-]. constructor; [reflexivity | constructor].
  - intros [= <-]. constructor.
Qed.

(** Without an operator among its keys, an update assigns only to paths that
    are keys of the document. *)
Lemma cast_update_keys (update : JsObject) (assignments : list (string * string)) :
  Forall (fun key => String.prefix "$" key = false) (map fst update) ->
  Mongoose.cast_update update = inr assignments ->
  Forall (fun a => In (fst a) (map fst update)) assignments.
Proof.
  revert assignments. induction update as [|[key v] rest IH]; intros assignments Hop; simpl.
  - intros [= <-]. constructor.
  - inversion Hop as [|? ? Hkey Hrest]; subst. simpl in Hkey.
    unfold Mongoose.cast_key.
    destruct (String.eqb key "$set") eqn:Hset.
    { apply String.eqb_eq in Hset. subst key. discriminate Hkey. }
    rewrite Hkey.
    destruct (Mongoose.cast_path key v) as [e|a] eqn:Hc; [discriminate|].
    destruct (Mongoose.cast_update rest) as [e|b] eqn:Hr; [discriminate|].
    intros [= <-]. apply Forall_app. split.
    + apply cast_path_keys in Hc. eapply Forall_impl; [exact Hc|].
      simpl. intros x ->. left. reflexivity.
    + eapply Forall_impl; [exact (IH b Hrest eq_refl)|]. simpl. intros x Hx. right. exact Hx.
Qed.

(** What [updateProfile] can do to the collection of users: nothing, or
    replace the first document with the id of the caller by that document
    with the assignments of the sanitized body applied. *)
Lemma updateProfile_users (w : World) :
  let updateData := js_delete "status" (js_delete "role" (js_delete "password" (body (req w)))) in
  let w' := snd (AuthController.updateProfile w) in
  logs (db w') = logs (db w)
  /\ (users (db w') = users (db w)
      \/ exists u assignments d,
           user (req w) = Some u
           /\ Mongoose.cast_update updateData = inr assignments
           /\ List.find (Mongoose.has_id (user_id u)) (users (db w)) = Some d
           /\ users (db w')
              = Mongoose.replace_first (Mongoose.has_id (user_id u))
                  (Mongoose.apply_assignments assignments d) (users (db w))).
Proof.
  intros updateData w'.
  assert (Hpw : js_get "password" updateData = None).
  { unfold updateData. do 2 apply js_get_delete_none. apply js_get_delete_same. }
  unfold w', AuthController.updateProfile, AuthController.req_user_id,
    UserService.updateUser, Mongoose.User_findByIdAndUpdate, Mongoose.castObjectId,
    Mongoose.connected, Mongoose.get_users, Mongoose.set_users, get_req,
    errorResponse, successResponse, logger_error, try_catch, bind, ret, throw.
  fold updateData. rewrite Hpw.
  destruct (user (req w)) as [u|] eqn:Hu; simpl; [|split; [reflexivity | left; reflexivity]].
  destruct (isValidObjectId (user_id u)); simpl; [|split; [reflexivity | left; reflexivity]].
  destruct (Mongoose.cast_update updateData) as [e|assignments] eqn:Hc; simpl;
    [split; [reflexivity | left; reflexivity]|].
  destruct (Mongoose.validation_errors assignments); simpl;
    [|split; [reflexivity | left; reflexivity]].
  destruct (fault (db w)); simpl; [split; [reflexivity | left; reflexivity]|].
  destruct (List.find _ (users (db w))) as [d|] eqn:Hfound; simpl;
    [|split; [reflexivity | left; reflexivity]].
  split; [reflexivity|]. right. exists u, assignments, d.
  repeat split; try reflexivity; assumption.
Qed.

End ProfileProperties.

Lemma find_replace_first_other {A : Type} (p q : A -> bool) (d d' : A) (l : list A) :
  List.find p l = Some d ->
  List.find q l = Some d ->
  q d' = true ->
  List.find q (Mongoose.replace_first p d' l) = Some d'.
Proof.
  intros Hp Hq Hd'. induction l as [|a l IH]; simpl in *; [discriminate|].
  destruct (p a) eqn:Ha.
  - simpl. rewrite Hd'. reflexivity.
  - simpl. destruct (q a) eqn:Hqa.
    + exfalso. injection Hq as ->. apply find_some in Hp. destruct Hp as [_ Hp]. congruence.
    + apply IH; assumption.
Qed.


Section ProfileFrame.

Context `{Libraries}.

(** When no key of the request body starts with "$", [updateProfile] leaves the
    role, the status and the password hash of every stored account as they
    were, whatever else the body holds and whether the update succeeds or
    fails. *)
Theorem updateProfile_keeps_role_and_status (w : World) :
  Forall (fun key => String.prefix "$" key = false) (map fst (body (req w))) ->
  let w' := snd (AuthController.updateProfile w) in
  map User.role (users (db w')) = map User.role (users (db w))
  /\ map User.status (users (db w')) = map User.status (users (db w))
  /\ map User.password (users (db w')) = map User.password (users (db w)).
Proof.
  intros Hop w'.
  destruct (updateProfile_users w) as [_ [Hsame | (u & assignments & d & Hu & Hc & Hfound & Hnew)]];
    fold w' in Hsame || fold w' in Hnew.
  - rewrite Hsame. repeat split.
  - set (updateData := js_delete "status" (js_delete "role" (js_delete "password" (body (req w)))))
      in *.
    assert (Hkeys : Forall (fun key => String.prefix "$" key = false) (map fst updateData)).
    { rewrite Forall_forall in *. intros k Hk. apply Hop.
      apply list_elem_of_In. apply list_elem_of_In in Hk. apply sanitized_keys in Hk. tauto. }
    pose proof (cast_update_keys _ _ Hkeys Hc) as Hpaths.
    assert (Hframe : Forall (fun a => fst a <> "password" /\ fst a <> "role"
                                      /\ fst a <> "status") assignments).
    { eapply Forall_impl; [exact Hpaths|]. simpl. intros a Ha.
      apply sanitized_keys in Ha. tauto. }
    destruct (apply_assignments_frame assignments d Hframe) as (Ep & Er & Es).
    destruct (replace_first_split _ d (Mongoose.apply_assignments assignments d) _ Hfound)
      as (before & after & Hl & Hr & _).
    rewrite Hnew, Hr, Hl, !map_app. simpl. rewrite Ep, Er, Es. repeat split.
Qed.

(** Whatever the request body holds, [updateProfile] changes at most one
    stored account, the first one with the id of the caller, and the account
    keeps that id; the login trail is not touched. *)
Theorem updateProfile_touches_only_the_caller (w : World) :
  let w' := snd (AuthController.updateProfile w) in
  logs (db w') = logs (db w)
  /\ (users (db w') = users (db w)
      \/ exists u before old new after,
           user (req w) = Some u
           /\ users (db w) = before ++ old :: after
           /\ users (db w') = before ++ new :: after
           /\ User._id old = user_id u
           /\ User._id new = user_id u).
Proof.
  intros w'.
  destruct (updateProfile_users w) as [Hlogs [Hsame | (u & assignments & d & Hu & Hc & Hfound & Hnew)]];
    fold w' in Hlogs; (fold w' in Hsame || fold w' in Hnew).
  - split; [exact Hlogs | left; exact Hsame].
  - split; [exact Hlogs|]. right.
    destruct (replace_first_split _ d (Mongoose.apply_assignments assignments d) _ Hfound)
      as (before & after & Hl & Hr & _).
    exists u, before, d, (Mongoose.apply_assignments assignments d), after.
    apply find_some in Hfound. destruct Hfound as [_ Hid].
    unfold Mongoose.has_id in Hid. apply String.eqb_eq in Hid.
    rewrite apply_assignments_id. repeat split; try assumption. congruence.
Qed.


(** After [deleteUser] has marked an account as deleted, a login with the
    email of that account is refused with "Account has been deactivated",
    whatever password is sent. *)
Theorem deleted_user_cannot_log_in (w : World) (userId email : string) (password : Json)
    (d : User.Doc) :
  fault (db w) = None ->
  isValidObjectId userId = true ->
  List.find (Mongoose.has_id userId) (users (db w)) = Some d ->
  List.find (Mongoose.has_email email) (users (db w)) = Some d ->
  let w' := snd (UserService.deleteUser userId w) in
  fst (UserService.deleteUser userId w)
  = Normal (mkResult true (Some "User deleted successfully") None)
  /\ AuthService.login email password w'
     = (Normal (mkResult false (Some "Account has been deactivated") None), w').
Proof.
  intros Hf Hid Hbyid Hbyemail w'.
  set (d' := UserSchema.assign "status" "deleted" d).
  assert (Hrun : UserService.deleteUser userId w
                 = (Normal (mkResult true (Some "User deleted successfully") None),
                    with_db (fun s => mkDatabase
                                        (Mongoose.replace_first (Mongoose.has_id userId) d'
                                           (users (db w)))
                                        (logs s) (fault s)) w)).
  { unfold UserService.deleteUser, Mongoose.User_findByIdAndUpdate, Mongoose.castObjectId,
      Mongoose.connected, Mongoose.get_users, Mongoose.set_users, try_catch, bind, ret.
    rewrite Hid. simpl. rewrite Hf. simpl. rewrite Hbyid. reflexivity. }
  unfold w'. rewrite Hrun. simpl. split; [reflexivity|].
  apply (login_deleted_run _ email password d').
  - simpl. exact Hf.
  - simpl. apply (find_replace_first_other _ _ d); try assumption.
    apply find_some in Hbyemail. destruct Hbyemail as [_ Hq]. exact Hq.
  - reflexivity.
Qed.

End ProfileFrame.

(** *** Signing out and reading the profile *)

Lemma bind_normal_inv {A B : Type} (m : M A) (k : A -> M B) (w : World) (r : B) :
  fst (bind m k w) = Normal r ->
  exists a w1, m w = (Normal a, w1) /\ fst (k a w1) = Normal r.
Proof.
  unfold bind. destruct (m w) as [[a|e] w1]; simpl; [|discriminate].
  intros Hr. exists a, w1. split; [reflexivity | exact Hr].
Qed.

Lemma try_catch_normal_inv {A : Type} (body : M A) (handler : JsError -> M A)
    (w : World) (r : A) :
  fst (try_catch body handler w) = Normal r ->
  fst (body w) = Normal r
  \/ exists e w1, body w = (Throw e, w1) /\ fst (handler e w1) = Normal r.
Proof.
  unfold try_catch. destruct (body w) as [[a|e] w1]; simpl.
  - intros Hr. left. exact Hr.
  - intros Hr. right. exists e, w1. split; [reflexivity | exact Hr].
Qed.

Section ControllerProperties.

Context `{Libraries}.

(** [logout] always answers "Logout successful": a request without
    [req.user], a user without a record in the trail, a malformed id and an
    unreachable store all end in the same reply, and no account is changed. *)
Theorem logout_always_succeeds (w : World) :
  exists w',
    AuthController.logout w = (Normal tt, w')
    /\ replies w'
       = replies w ++ [successResponse_call (Some JNull) (Some "Logout successful") None]
    /\ users (db w') = users (db w).
Proof.
  unfold AuthController.logout, AuthService.getLastLogin, AuthService.updateLogoutTime,
    Mongoose.Log_findOne_loginId_latest, Mongoose.Log_findByIdAndUpdate_loggedOutAt,
    Mongoose.castObjectId, Mongoose.connected, Mongoose.get_logs, Mongoose.set_logs,
    Date_now, get_req, successResponse, errorResponse, logger_error,
    try_catch, bind, ret, throw.
  destruct (user (req w)) as [u|]; simpl; [|eexists; repeat split].
  destruct (isValidObjectId (user_id u)); simpl; [|eexists; repeat split].
  destruct (fault (db w)) eqn:Hf; simpl; [eexists; repeat split|].
  destruct (Mongoose.latest _) as [log|]; simpl; [|eexists; repeat split].
  destruct (isValidObjectId (Log._id log)); simpl; [|eexists; repeat split].
  rewrite Hf. simpl.
  destruct (List.find _ (logs (db w))); simpl; eexists; repeat split.
Qed.

(** [getProfile] answers for a stored caller with the six public fields of
    the account; the password hash is not among them. *)
Theorem getProfile_omits_the_password (w : World) (u : Claims) (d : User.Doc) :
  user (req w) = Some u ->
  isValidObjectId (user_id u) = true ->
  fault (db w) = None ->
  List.find (Mongoose.has_id (user_id u)) (users (db w)) = Some d ->
  AuthController.getProfile w
  = (Normal tt,
     with_reply
       (successResponse_call
          (Some (JObj [("_id", JStr (User._id d)); ("email", JStr (User.email d));
                       ("phone", JStr (User.phone d)); ("name", JStr (User.name d));
                       ("role", JStr (User.role d)); ("status", JStr (User.status d))]))
          (Some "Profile retrieved successfully") None) w).
Proof.
  intros Hu Hid Hf Hfound.
  unfold AuthController.getProfile, AuthController.req_user_id, UserService.getUserById,
    Mongoose.User_findById_select, Mongoose.castObjectId, Mongoose.connected,
    Mongoose.get_users, get_req, successResponse, try_catch, bind, ret.
  rewrite Hu. simpl. rewrite Hid. simpl. rewrite Hf. simpl. rewrite Hfound. reflexivity.
Qed.

(** No result of a service carries a password hash: the account in the data
    of [login], of the earlier [authenticateUser], of both [getUserById] and
    of [updateUser] has no [password]. *)
Theorem service_results_omit_the_password (w : World) (email userId : string)
    (password : Json) (updateData : JsObject) :
  (forall r account token, fst (AuthService.login email password w) = Normal r ->
     data r = Some (account, token) -> User.password account = None)
  /\ (forall r account, fst (LegacyUserService.authenticateUser email password w) = Normal r ->
        data r = Some account -> User.password account = None)
  /\ (forall r account, fst (UserService.getUserById userId w) = Normal r ->
        data r = Some account -> User.password account = None)
  /\ (forall r account, fst (LegacyUserService.getUserById userId w) = Normal r ->
        data r = Some account -> User.password account = None)
  /\ (forall r account, fst (UserService.updateUser userId updateData w) = Normal r ->
        data r = Some account -> User.password account = None).
Proof.
  repeat split; intros r account.
  - intros token.
    unfold AuthService.login, Mongoose.User_findOne_email, Mongoose.connected,
      Mongoose.get_users, AuthService.comparePassword, Bcrypt.compare,
      AuthService.generateToken, Date_now, logger_error, try_catch, bind, ret, throw.
    destruct (fault (db w)); simpl; [intros [= <-]; discriminate|].
    destruct (List.find _ _) as [a|]; simpl; [|intros [= <-]; discriminate].
    destruct (String.eqb (User.status a) "deleted"); simpl; [intros [= <-]; discriminate|].
    destruct (User.password a) as [h|], password as [| | |secret| |]; simpl;
      try (intros [= <-]; discriminate).
    destruct (bcrypt_compare secret h); simpl; intros [= <-]; [|discriminate].
    simpl. intros [= <- _]. reflexivity.
  - unfold LegacyUserService.authenticateUser, LegacyUserService.getUserByEmail, DB.select,
      Mongoose.User_find_email, Mongoose.connected, Mongoose.get_users, Bcrypt.compare,
      console_error, try_catch, bind, ret, throw.
    destruct (fault (db w)); simpl; [intros [= <-]; discriminate|].
    destruct (List.filter _ _) as [|a rest]; simpl; [intros [= <-]; discriminate|].
    destruct (String.eqb (User.status a) "deleted"); simpl; [intros [= <-]; discriminate|].
    destruct (User.password a) as [h|], password as [| | |secret| |]; simpl;
      try (intros [= <-]; discriminate).
    destruct (bcrypt_compare secret h); simpl; intros [= <-]; [|discriminate].
    simpl. intros [= <-]. reflexivity.
  - unfold UserService.getUserById, Mongoose.User_findById_select, Mongoose.castObjectId,
      Mongoose.connected, Mongoose.get_users, logger_error, try_catch, bind, ret, throw.
    destruct (isValidObjectId userId); simpl; [|intros [= <-]; discriminate].
    destruct (fault (db w)); simpl; [intros [= <-]; discriminate|].
    destruct (List.find _ _) as [a|]; simpl; intros [= <-]; [|discriminate].
    simpl. intros [= <-]. reflexivity.
  - unfold LegacyUserService.getUserById, DB.select, Mongoose.User_find_id,
      Mongoose.castObjectId, Mongoose.connected, Mongoose.get_users, console_error,
      try_catch, bind, ret, throw.
    destruct (isValidObjectId userId); simpl; [|intros [= <-]; discriminate].
    destruct (fault (db w)); simpl; [intros [= <-]; discriminate|].
    destruct (List.filter _ _) as [|a rest]; simpl; intros [= <-]; [discriminate|].
    simpl. intros [= <-]. reflexivity.
  - unfold UserService.updateUser. intros Hr Hd.
    apply try_catch_normal_inv in Hr. destruct Hr as [Hr | (e & w1 & _ & Hr)].
    + apply bind_normal_inv in Hr. destruct Hr as (updateData' & w1 & _ & Hr).
      apply bind_normal_inv in Hr. destruct Hr as (found & w2 & _ & Hr).
      destruct found as [user|]; simpl in Hr; injection Hr as <-; simpl in Hd.
      * injection Hd as <-. reflexivity.
      * discriminate Hd.
    + simpl in Hr. injection Hr as <-. discriminate Hd.
Qed.

End ControllerProperties.

(** *** The later middleware and the client of a request *)

Lemma substring_all (s : string) : String.substring 0 (String.length s) s = s.
Proof. induction s as [|c s IH]; simpl; [reflexivity|]. rewrite IH. reflexivity. Qed.

Lemma substring_from_Bearer (token : string) :
  substring_from 7 ("Bearer " +:+ token) = token.
Proof.
  unfold substring_from. simpl. rewrite Nat.sub_0_r. apply substring_all.
Qed.

Section LaterMiddleware.

Variable jwt_verify : string -> string -> Z -> JsError + Claims.
Variable JWT_SECRET : string.
Context `{Libraries}.

(** The later [authenticate] tells the client why a bearer token was refused:
    "Token expired." for an expired token, "Invalid token." for any other
    token error, "Authentication failed." for anything else; it never calls
    [next] for such a token. *)
Theorem later_authenticate_names_the_reason (w : World) (token : string) (e : JsError) :
  headers_authorization (req w) = Some ("Bearer " +:+ token) ->
  jwt_verify token config_jwt_secret (clock w) = inl e ->
  auth_middleware.authenticate jwt_verify w
  = (Normal tt,
     with_reply
       (errorResponse_call
          (Some match e with
                | JsonWebTokenError _ => "Invalid token."
                | TokenExpiredError _ => "Token expired."
                | _ => "Authentication failed."
                end) 401) w).
Proof.
  intros Hh Hv.
  unfold auth_middleware.authenticate, AuthMiddleware.jwt_verify_call, try_catch, bind,
    get_req, errorResponse.
  assert (Hpre : String.prefix "Bearer " ("Bearer " +:+ token) = true)
    by (destruct token; reflexivity).
  rewrite Hh, Hpre, substring_from_Bearer. simpl. rewrite Hv.
  destruct e; reflexivity.
Qed.

(** A header that carries the token without the "Bearer " prefix is accepted by
    the earlier [authenticate], which verifies the whole header, and refused by
    the later one with "Access denied. No token provided." before any
    verification. *)
Theorem bare_token_is_accepted_only_by_the_earlier_middleware (w : World) (authHeader : string)
    (decoded : Claims) :
  headers_authorization (req w) = Some authHeader ->
  authHeader <> "" ->
  String.prefix "Bearer " authHeader = false ->
  jwt_verify authHeader JWT_SECRET (clock w) = inr decoded ->
  user_status decoded <> "deleted" ->
  AuthMiddleware.authenticate jwt_verify JWT_SECRET w
  = (Normal tt, with_next (with_req (set_user decoded) w))
  /\ auth_middleware.authenticate jwt_verify w
     = (Normal tt,
        with_reply (errorResponse_call (Some "Access denied. No token provided.") 401) w).
Proof.
  intros Hh Hne Hpre Hv Hst.
  assert (Htok : AuthMiddleware.extractToken (req w) = Some authHeader).
  { unfold AuthMiddleware.extractToken. rewrite Hh.
    apply String.eqb_neq in Hne. rewrite Hne, Hpre. reflexivity. }
  split.
  - pose proof (falsy_extractToken _ _ Htok Hne) as Hfalsy.
    apply String.eqb_neq in Hst.
    unfold AuthMiddleware.authenticate, AuthMiddleware.verifyToken,
      AuthMiddleware.jwt_verify_call, try_catch, bind, get_req, ret.
    rewrite Hfalsy, Htok. simpl. rewrite Hv, Hst. reflexivity.
  - unfold auth_middleware.authenticate, try_catch, bind, get_req, errorResponse.
    rewrite Hh, Hpre. rewrite orb_true_r. reflexivity.
Qed.

End LaterMiddleware.

(** The order of the tests decides: a user agent that names Linux is
    reported as "Linux" even when it names Android, so "Android" is only
    reported for an agent without "Linux"; and "Edge" or "Opera" is only
    reported for an agent that names neither Chrome nor Firefox nor Safari. *)
Theorem client_names_follow_the_order_of_tests (r : Request) :
  let userAgent := default "" (headers_user_agent r) in
  (AuthController.getClientOS r = "Android" -> String_includes userAgent "Linux" = false)
  /\ (String_includes userAgent "Windows" = false ->
      String_includes userAgent "Mac OS" = false ->
      String_includes userAgent "Linux" = true ->
      AuthController.getClientOS r = "Linux")
  /\ (String_includes userAgent "Chrome" = true -> AuthController.getClientBrowser r = "Chrome")
  /\ (AuthController.getClientBrowser r = "Edge" \/ AuthController.getClientBrowser r = "Opera" ->
      String_includes userAgent "Chrome" = false
      /\ String_includes userAgent "Firefox" = false
      /\ String_includes userAgent "Safari" = false).
Proof.
  intros userAgent.
  unfold AuthController.getClientOS, AuthController.getClientBrowser. fold userAgent.
  destruct (String_includes userAgent "Windows"), (String_includes userAgent "Mac OS"),
    (String_includes userAgent "Linux"), (String_includes userAgent "Chrome"),
    (String_includes userAgent "Firefox"), (String_includes userAgent "Safari");
    repeat split; try reflexivity; try discriminate;
    intros; repeat match goal with H : _ \/ _ |- _ => destruct H end;
    try reflexivity; discriminate.
Qed.

(** ** The properties at sample requests *)

Lemma authenticate_rejects_refused_token_witness :
  let w := Sample.world (Sample.request (Some "Bearer expired")) 0 Sample.empty_db in
  AuthMiddleware.authenticate Sample.jwt_verify Sample.JWT_SECRET w
  = (Normal tt,
     replied 401 (rejection "Invalid or expired token.")
             (with_console ("Token verification failed: "
                            +:+ error_message (TokenExpiredError "jwt expired")) w)).
Proof.
  intro w.
  apply (authenticate_rejects_refused_token Sample.jwt_verify Sample.JWT_SECRET w "expired"
           (TokenExpiredError "jwt expired")); try reflexivity. discriminate.
Defined.

Lemma authenticate_accepts_verified_token_witness :
  let w := Sample.world (Sample.request (Some "Bearer moderator")) 0 Sample.empty_db in
  let decoded := mkClaims "u1" "m@x.io" "moderator" "verified" 0 86400 in
  AuthMiddleware.authenticate Sample.jwt_verify Sample.JWT_SECRET w
  = (Normal tt, with_next (with_req (set_user decoded) w)).
Proof.
  intros w decoded.
  apply (authenticate_accepts_verified_token Sample.jwt_verify Sample.JWT_SECRET w
           "moderator" decoded); try reflexivity; discriminate.
Defined.

Lemma authenticate_next_only_when_verified_witness :
  let w := Sample.world (Sample.request (Some "Bearer moderator")) 0 Sample.empty_db in
  exists token decoded,
    AuthMiddleware.extractToken (req w) = Some token
    /\ Sample.jwt_verify token Sample.JWT_SECRET (clock w) = inr decoded
    /\ user_status decoded <> "deleted"
    /\ user (req (snd (AuthMiddleware.authenticate Sample.jwt_verify Sample.JWT_SECRET w)))
       = Some decoded.
Proof.
  intro w.
  apply (authenticate_next_only_when_verified Sample.jwt_verify Sample.JWT_SECRET w).
  reflexivity.
Defined.

Lemma optionalAuth_user_is_verified_witness :
  let w := Sample.world (Sample.request (Some "Bearer moderator")) 0 Sample.empty_db in
  let u := mkClaims "u1" "m@x.io" "moderator" "verified" 0 86400 in
  user (req w) = Some u
  \/ exists token,
       AuthMiddleware.extractToken (req w) = Some token
       /\ Sample.jwt_verify token Sample.JWT_SECRET (clock w) = inr u
       /\ user_status u <> "deleted".
Proof.
  intros w u.
  apply (optionalAuth_user_is_verified Sample.jwt_verify Sample.JWT_SECRET w u).
  reflexivity.
Defined.

Lemma guards_require_authentication_witness :
  let w := Sample.world (Sample.request None) 0 Sample.empty_db in
  AuthMiddleware.authorize [] w
  = (Normal tt, replied 401 (rejection "Authentication required.") w)
  /\ AuthMiddleware.selfOrAdmin "userId" w
     = (Normal tt, replied 401 (rejection "Authentication required.") w)
  /\ AuthMiddleware.verifiedOnly w
     = (Normal tt, replied 401 (rejection "Authentication required.") w).
Proof.
  intro w. apply (guards_require_authentication [] "userId" w); reflexivity.
Defined.

Lemma verifiedOnly_passes_iff_witness :
  let u := mkClaims "u1" "p@x.io" "user" "pending" 0 86400 in
  let w := Sample.world (Sample.request_of u "u1") 0 Sample.empty_db in
  (calls_next AuthMiddleware.verifiedOnly w <-> user_status u = "verified")
  /\ (user_status u <> "verified" ->
      AuthMiddleware.verifiedOnly w
      = (Normal tt,
         replied 403 [("success", JBool false);
                      ("message", JStr "Account verification required.");
                      ("userStatus", JStr (user_status u))] w)).
Proof.
  intros u w. apply (verifiedOnly_passes_iff w u); reflexivity.
Defined.

Lemma role_guards_agree_witness :
  let u := mkClaims "u1" "m@x.io" "moderator" "verified" 0 86400 in
  let w := Sample.world (Sample.request_of u "u2") 0 Sample.empty_db in
  (calls_next (AuthMiddleware.authorize ["admin"; "moderator"]) w
   <-> calls_next (auth_middleware.authorize ["admin"; "moderator"]) w)
  /\ (calls_next (AuthMiddleware.selfOrAdmin "userId") w
      <-> calls_next (auth_middleware.selfOrAdmin "userId") w).
Proof.
  intros u w. apply (role_guards_agree ["admin"; "moderator"] "userId" w). reflexivity.
Defined.

Lemma rateLimit_keeps_at_most_the_ceiling_witness :
  let w := Sample.world (Sample.request None) 5000 Sample.empty_db in
  (Z.of_nat (length (default []
      (requests (snd (AuthMiddleware.rateLimit 3 60000 w)) !! "10.0.0.1"))) <= 3)%Z.
Proof.
  intro w.
  apply (rateLimit_keeps_at_most_the_ceiling 3%Z 60000%Z w "10.0.0.1").
  - lia.
  - vm_compute. discriminate.
Defined.

Lemma rateLimit_keeps_only_the_window_witness :
  let w := Sample.world (Sample.request None) 5000 Sample.empty_db in
  Forall (fun time => (clock w - 60000 < time <= clock w)%Z)
         (default [] (requests (snd (AuthMiddleware.rateLimit 3 60000 w))
                        !! rate_key (req w))).
Proof.
  intro w.
  apply (rateLimit_keeps_only_the_window 3%Z 60000%Z w).
  - lia.
  - vm_compute. constructor.
Defined.

Lemma retryAfter_covers_the_window_witness :
  let r := Sample.request None in
  let w1 := snd (AuthMiddleware.rateLimit 1 60500
                   (arrive r 0 (Sample.world r 0 Sample.empty_db))) in
  exists seconds : Z,
    js_get "retryAfter"
      (default [] (snd <$> sent (res (snd (AuthMiddleware.rateLimit 1 60500
                                             (arrive r 30000 w1))))))
    = Some (JNum seconds)
    /\ (1000 * (seconds - 1) < 60500 <= 1000 * seconds)%Z.
Proof.
  intros r w1.
  apply (retryAfter_covers_the_window 1%Z 60500%Z (arrive r 30000 w1)).
  - reflexivity.
  - vm_compute. discriminate.
Defined.

Lemma login_succeeds_witness :
  let w := Sample.profile_world [] "verified" in
  AuthService.login (H := Sample.libraries) "alice@x.io" (JStr "pw-alice") w
  = (Normal (mkResult true (Some "Login successful")
               (Some (UserSchema.without_password (Sample.alice "verified"),
                      "token-of-" +:+ Sample.id1))),
     w).
Proof.
  intro w.
  apply (login_succeeds (H := Sample.libraries) w "alice@x.io" "pw-alice" "hashed:pw-alice"
           (Sample.alice "verified")); try reflexivity. discriminate.
Defined.

Lemma login_refuses_deleted_account_witness :
  let w := Sample.profile_world [] "deleted" in
  AuthService.login (H := Sample.libraries) "alice@x.io" (JStr "pw-alice") w
  = (Normal (mkResult false (Some "Account has been deactivated") None), w)
  /\ LegacyUserService.authenticateUser (H := Sample.libraries) "alice@x.io"
       (JStr "pw-alice") w
     = (Normal (mkResult false (Some "Account has been deactivated") None), w).
Proof.
  intro w.
  apply (login_refuses_deleted_account (H := Sample.libraries) w "alice@x.io"
           (JStr "pw-alice") (Sample.alice "deleted")); reflexivity.
Defined.

Lemma updateLogoutTime_closes_one_record_witness :
  let w := Sample.profile_world [] "verified" in
  exists w' before after,
    AuthService.updateLogoutTime (H := Sample.libraries) Sample.id2 w
    = (Normal (mkResult true (Some "Logout time updated") None), w')
    /\ logs (db w) = before ++ Sample.log1 :: after
    /\ logs (db w') = before ++ Mongoose.set_loggedOutAt (clock w) Sample.log1 :: after
    /\ Forall (fun x => Log._id x <> Sample.id2) before
    /\ users (db w') = users (db w).
Proof.
  intro w.
  apply (updateLogoutTime_closes_one_record (H := Sample.libraries) w Sample.id2 Sample.log1);
    reflexivity.
Defined.

Lemma legacy_updateLogoutTime_not_found_witness :
  let w := Sample.profile_world [] "verified" in
  exists w',
    LogService.updateLogoutTime (H := Sample.libraries) Sample.id1 w
    = (Normal (mkResult false (Some "Log entry not found") None), w')
    /\ logs (db w') = logs (db w).
Proof.
  intro w.
  apply (legacy_updateLogoutTime_not_found (H := Sample.libraries) w Sample.id1).
  right. right. reflexivity.
Defined.

Lemma getLastLogin_is_the_latest_witness :
  let w := Sample.profile_world [] "verified" in
  let mine := List.filter (fun d => String.eqb (Log.loginId d) Sample.id1) (logs (db w)) in
  (mine = [] ->
   AuthService.getLastLogin (H := Sample.libraries) Sample.id1 w
   = (Normal (mkResult false (Some "No login history found") None), w))
  /\ (mine <> [] ->
      exists log,
        AuthService.getLastLogin (H := Sample.libraries) Sample.id1 w
        = (Normal (mkResult true None (Some log)), w)
        /\ In log (logs (db w))
        /\ Log.loginId log = Sample.id1
        /\ Forall (fun x => (Log.loggedInAt x <= Log.loggedInAt log)%Z) mine).
Proof.
  intros w mine.
  apply (getLastLogin_is_the_latest (H := Sample.libraries) w Sample.id1); reflexivity.
Defined.

Lemma updateProfile_keeps_role_and_status_witness :
  let w := Sample.profile_world [("name", JStr "Alicia"); ("role", JStr "admin")] "verified" in
  let w' := snd (AuthController.updateProfile (H := Sample.libraries) w) in
  map User.role (users (db w')) = map User.role (users (db w))
  /\ map User.status (users (db w')) = map User.status (users (db w))
  /\ map User.password (users (db w')) = map User.password (users (db w)).
Proof.
  intros w w'.
  apply (updateProfile_keeps_role_and_status (H := Sample.libraries) w).
  repeat constructor.
Defined.


Lemma deleted_user_cannot_log_in_witness :
  let w := Sample.profile_world [] "verified" in
  let w' := snd (UserService.deleteUser (H := Sample.libraries) Sample.id1 w) in
  fst (UserService.deleteUser (H := Sample.libraries) Sample.id1 w)
  = Normal (mkResult true (Some "User deleted successfully") None)
  /\ AuthService.login (H := Sample.libraries) "alice@x.io" (JStr "pw-alice") w'
     = (Normal (mkResult false (Some "Account has been deactivated") None), w').
Proof.
  intros w w'.
  apply (deleted_user_cannot_log_in (H := Sample.libraries) w Sample.id1 "alice@x.io"
           (JStr "pw-alice") (Sample.alice "verified")); reflexivity.
Defined.

Lemma getProfile_omits_the_password_witness :
  let w := Sample.profile_world [] "verified" in
  let d := Sample.alice "verified" in
  AuthController.getProfile (H := Sample.libraries) w
  = (Normal tt,
     with_reply
       (successResponse_call
          (Some (JObj [("_id", JStr (User._id d)); ("email", JStr (User.email d));
                       ("phone", JStr (User.phone d)); ("name", JStr (User.name d));
                       ("role", JStr (User.role d)); ("status", JStr (User.status d))]))
          (Some "Profile retrieved successfully") None) w).
Proof.
  intros w d.
  apply (getProfile_omits_the_password (H := Sample.libraries) w Sample.alice_claims d);
    reflexivity.
Defined.

Lemma later_authenticate_names_the_reason_witness :
  let w := Sample.world (Sample.request (Some "Bearer expired")) 0 Sample.empty_db in
  auth_middleware.authenticate (H := Sample.libraries) Sample.jwt_verify w
  = (Normal tt, with_reply (errorResponse_call (Some "Token expired.") 401) w).
Proof.
  intro w.
  apply (later_authenticate_names_the_reason Sample.jwt_verify (H := Sample.libraries) w
           "expired" (TokenExpiredError "jwt expired")); reflexivity.
Defined.

Lemma bare_token_is_accepted_only_by_the_earlier_middleware_witness :
  let w := Sample.world (Sample.request (Some "moderator")) 0 Sample.empty_db in
  let decoded := mkClaims "u1" "m@x.io" "moderator" "verified" 0 86400 in
  AuthMiddleware.authenticate Sample.jwt_verify Sample.JWT_SECRET w
  = (Normal tt, with_next (with_req (set_user decoded) w))
  /\ auth_middleware.authenticate (H := Sample.libraries) Sample.jwt_verify w
     = (Normal tt,
        with_reply (errorResponse_call (Some "Access denied. No token provided.") 401) w).
Proof.
  intros w decoded.
  apply (bare_token_is_accepted_only_by_the_earlier_middleware Sample.jwt_verify Sample.JWT_SECRET
           (H := Sample.libraries) w "moderator" decoded); try reflexivity; discriminate.
Defined.
